(** * parse_sql_columns: column/value extraction from INSERT statements

    A shallow embedding of [parse_sql_columns.py].  The script walks the
    token tree that the [sqlparse] library builds for each statement and
    returns, per statement, an ordered dictionary holding the query text
    and either the extracted (table.column, value) pairs or an error
    message.

    The tokenizer itself is a library: what the script needs from it
    (token types, token lists and their classes, rendering to text and
    the statement type) is modelled in the first two modules. *)

From Stdlib Require Import List String Ascii Bool Arith Lia.
Import ListNotations.

Local Open Scope string_scope.
Local Open Scope list_scope.

Set Warnings "-register-all".

(** ** Token types ([sqlparse.tokens]) *)

(** A token type is a path below the root [Token]; the library keeps one
    object per path, so Python's [is] on token types is equality of
    paths, and so is [==]. *)
Module Tokens.

Definition TokenType : Type := list string.

Definition Token : TokenType := [].
Definition Keyword : TokenType := ["Keyword"].
Definition DML : TokenType := ["Keyword"; "DML"].
Definition Name : TokenType := ["Name"].
Definition Punctuation : TokenType := ["Punctuation"].
Definition Text : TokenType := ["Text"].
Definition Whitespace : TokenType := ["Text"; "Whitespace"].
Definition Newline : TokenType := ["Text"; "Whitespace"; "Newline"].
Definition Number : TokenType := ["Literal"; "Number"; "Integer"].
Definition Single : TokenType := ["Literal"; "String"; "Single"].

Fixpoint eqb (a b : TokenType) : bool :=
  match a, b with
  | [], [] => true
  | x :: a', y :: b' => String.eqb x y && eqb a' b'
  | _, _ => false
  end.

(** [t.ttype is T] and the elements compared by [t.ttype in (...)]:
    the [ttype] of a token list is [None], which is no token type. *)
Definition is_ (ttype : option TokenType) (T : TokenType) : bool :=
  match ttype with
  | Some p => eqb p T
  | None => false
  end.

Definition in_ (ttype : option TokenType) (Ts : list TokenType) : bool :=
  existsb (is_ ttype) Ts.

(** [ty in T] for two token types: [T] is [ty] or stands above it. *)
Fixpoint below (T ty : TokenType) : bool :=
  match T, ty with
  | [], _ => true
  | x :: T', y :: ty' => String.eqb x y && below T' ty'
  | _ :: _, [] => false
  end.

End Tokens.

(** ** Token trees ([sqlparse.sql]) *)

Module Sql.

(** The classes of token list the script tests for; every other
    subclass of [TokenList] is [OtherList]. None of the four named
    classes derives from another. *)
Inductive Class : Type :=
  | Identifier
  | IdentifierList
  | Parenthesis
  | Function
  | OtherList.

Definition Class_eqb (a b : Class) : bool :=
  match a, b with
  | Identifier, Identifier
  | IdentifierList, IdentifierList
  | Parenthesis, Parenthesis
  | Function, Function
  | OtherList, OtherList => true
  | _, _ => false
  end.

(** A node is a leaf [Token] with its type and source text, or a
    [TokenList] of some class with its children. *)
Inductive node : Type :=
  | Token (ttype : Tokens.TokenType) (value : string)
  | TokenList (cls : Class) (tokens : list node).

Definition ttype (t : node) : option Tokens.TokenType :=
  match t with
  | Token ty _ => Some ty
  | TokenList _ _ => None
  end.

Definition isinstance_TokenList (t : node) : bool :=
  match t with
  | Token _ _ => false
  | TokenList _ _ => true
  end.

Definition isinstance (c : Class) (t : node) : bool :=
  match t with
  | Token _ _ => false
  | TokenList c' _ => Class_eqb c' c
  end.

(** [str(t)]: the source text of a leaf, and for a token list the
    texts of its leaves joined in order. *)
Fixpoint str (t : node) : string :=
  match t with
  | Token _ v => v
  | TokenList _ ts => String.concat "" (map str ts)
  end.

(** [t.flatten()], as the texts of the leaves below [t], in order. *)
Fixpoint flatten (t : node) : list string :=
  match t with
  | Token _ v => [v]
  | TokenList _ ts => flat_map flatten ts
  end.

(** A parsed statement: the top-level token list together with what
    [get_type()] reports for it (["UNKNOWN"] when the tokenizer
    recognises no statement type). *)
Record Statement : Type := mkStatement {
  stmt_tokens : list node;
  get_type : string
}.

Definition str_stmt (q : Statement) : string :=
  String.concat "" (map str (stmt_tokens q)).

End Sql.

Import Sql.

(** ** Python values the script relies on *)

(** The exceptions the script can raise: [TypeError] from iterating a
    leaf token, [ValueError] from unpacking a list that has not exactly
    two elements, [IndexError] from [[...][0]] on an empty list and
    [AssertionError] from the [assert]. *)
Inductive exn : Type :=
| TypeError
| ValueError
| IndexError
| AssertionError.

Inductive result (A : Type) : Type :=
| Ok (a : A)
| Raise (e : exn).

Arguments Ok {A} a.
Arguments Raise {A} e.

Definition bind {A B : Type} (m : result A) (k : A -> result B) : result B :=
  match m with
  | Ok a => k a
  | Raise e => Raise e
  end.

Notation "x <- m ;; k" := (bind m (fun x => k))
  (at level 61, m at next level, right associativity).

(** [for tok in t]: a token list iterates over its children, a leaf
    token is not iterable. *)
Definition iter (t : node) : result (list node) :=
  match t with
  | Token _ _ => Raise TypeError
  | TokenList _ ts => Ok ts
  end.

(** [a, b = l] *)
Definition unpack2 {A : Type} (l : list A) : result (A * A) :=
  match l with
  | [a; b] => Ok (a, b)
  | _ => Raise ValueError
  end.

(** [l[0]] *)
Definition item0 {A : Type} (l : list A) : result A :=
  match l with
  | a :: _ => Ok a
  | [] => Raise IndexError
  end.

(** [assert b] *)
Definition assert (b : bool) : result unit :=
  if b then Ok tt else Raise AssertionError.

(** The characters [str.strip] and [str.isspace] treat as whitespace:
    space, tab, line feed, vertical tab, form feed, carriage return. *)
Definition is_space (c : ascii) : bool :=
  let n := nat_of_ascii c in
  Nat.eqb n 32 || (Nat.leb 9 n && Nat.leb n 13).

Fixpoint lstrip (s : string) : string :=
  match s with
  | EmptyString => EmptyString
  | String c s' => if is_space c then lstrip s' else s
  end.

Fixpoint rstrip (s : string) : string :=
  match s with
  | EmptyString => EmptyString
  | String c s' =>
      match rstrip s' with
      | EmptyString => if is_space c then EmptyString else String c EmptyString
      | r => String c r
      end
  end.

Definition strip (s : string) : string := rstrip (lstrip s).

Fixpoint all_space (s : string) : bool :=
  match s with
  | EmptyString => true
  | String c s' => is_space c && all_space s'
  end.

(** [s.isspace()]: at least one character, and all of them whitespace. *)
Definition isspace (s : string) : bool :=
  match s with
  | EmptyString => false
  | _ => all_space s
  end.

(** The values stored in a result record. *)
Inductive value : Type :=
| VStr (s : string)
| VPairs (l : list (string * string)).

(** [OrderedDict]: keys in insertion order; assigning to a key that is
    present replaces its value in place. *)
Definition odict : Type := list (string * value).

Fixpoint setitem (r : odict) (k : string) (v : value) : odict :=
  match r with
  | [] => [(k, v)]
  | (k', v') :: r' =>
      if String.eqb k' k then (k', v) :: r' else (k', v') :: setitem r' k v
  end.

Fixpoint getitem (r : odict) (k : string) : option value :=
  match r with
  | [] => None
  | (k', v') :: r' => if String.eqb k' k then Some v' else getitem r' k
  end.

Definition keys (r : odict) : list string := map fst r.

Definition has_key (r : odict) (k : string) : bool :=
  match getitem r k with
  | Some _ => true
  | None => false
  end.

(** ** The script *)

(** Lines 52-58: the loop over the column identifier list. *)
Definition columns_step (columns : list string) (t : node) : list string :=
  let str_t := str t in
  if isinstance Identifier t || Tokens.is_ (ttype t) Tokens.Keyword
  then columns ++ [str_t]
  else columns.

(** Lines 65-72: the loop over the value list. *)
Definition values_step (values : list string) (t : node) : list string :=
  let str_t := str t in
  if Tokens.in_ (ttype t) [Tokens.Punctuation; Tokens.Whitespace]
  then values
  else values ++ [str_t].

(** Lines 39-77.  The calls to [logging] leave no trace in the result;
    of the loop of lines 61-62 only the iteration itself remains. *)
Definition tokenize_cols_values (t_cols t_values_tuple : node)
  : result (list (string * string)) :=
  toks <- iter t_cols ;;
  tc <- unpack2 (filter isinstance_TokenList toks) ;;
  let '(t_table, t_columns) := tc in
  let table := str t_table in
  toks <- iter t_columns ;;
  t_column_identifiers <- item0 (filter (isinstance IdentifierList) toks) ;;
  toks <- iter t_column_identifiers ;;
  let columns := fold_left columns_step toks [] in
  toks <- iter t_values_tuple ;;
  t_values <- item0 (filter (isinstance IdentifierList) toks) ;;
  toks <- iter t_values ;;
  let values := fold_left values_step toks [] in
  let r :=
    combine (map (fun col => (table ++ "." ++ col)%string) columns) values in
  _ <- assert (Nat.eqb (List.length values) (List.length columns)) ;;
  Ok r.

(** Lines 27-31: the loop that sorts the statement's children into the
    two arrays. *)
Definition arrays_step (arrs : list node * list node) (item : node)
  : list node * list node :=
  let '(t_table_and_columns_arr, t_values_tuple_arr) := arrs in
  if isinstance Function item
  then (t_table_and_columns_arr ++ [item], t_values_tuple_arr)
  else if isinstance Parenthesis item
  then (t_table_and_columns_arr, t_values_tuple_arr ++ [item])
  else arrs.

(** Lines 34-35: the loop over the zipped arrays, extending
    [col_value_pairs]. *)
Fixpoint for_zip (zipped : list (node * node))
  (col_value_pairs : list (string * string))
  : result (list (string * string)) :=
  match zipped with
  | [] => Ok col_value_pairs
  | (t_table_and_columns, t_values_tuple) :: rest =>
      r <- tokenize_cols_values t_table_and_columns t_values_tuple ;;
      for_zip rest (col_value_pairs ++ r)
  end.

(** Lines 15-37. *)
Definition extract_col_values (items : Statement) : result odict :=
  let r : odict := [("query", VStr (strip (str_stmt items)))] in
  if String.eqb (get_type items) "UNKNOWN" then
    Ok (setitem r "error" (VStr "Parsing failed"))
  else if negb (String.eqb (get_type items) "INSERT") then
    Ok (setitem r "error"
          (VStr ("Unsupported query type " ++ get_type items)%string))
  else
    let '(t_table_and_columns_arr, t_values_tuple_arr) :=
      fold_left arrays_step (stmt_tokens items) ([], []) in
    col_value_pairs <-
      for_zip (combine t_table_and_columns_arr t_values_tuple_arr) [] ;;
    Ok (setitem r "columns" (VPairs col_value_pairs)).

(** [split_queries] after [sqlparse.parse]: [items] is the list of
    statements the tokenizer returned for the input text. *)
Fixpoint split_queries (items : list Statement) : result (list odict) :=
  match items with
  | [] => Ok []
  | q :: rest =>
      if negb (isspace (str_stmt q)) then
        r <- extract_col_values q ;;
        rs <- split_queries rest ;;
        Ok (r :: rs)
      else split_queries rest
  end.

(** Lines 176-179: the logging level chosen from the command line.
    [x in sys.argv] compares [x] with each argument as a whole. *)
Inductive level : Type :=
| DEBUG
| INFO
| ERROR.

Definition contains (x : string) (l : list string) : bool :=
  existsb (String.eqb x) l.

Definition basicConfig_level (argv : list string) : level :=
  if contains "-vv" argv then DEBUG
  else if contains "-v" argv then INFO
  else ERROR.

(** ** The statements of the script's unit tests, as token trees *)

Module Examples.

Definition ws : node := Token Tokens.Whitespace " ".
Definition comma : node := Token Tokens.Punctuation ",".
Definition lpar : node := Token Tokens.Punctuation "(".
Definition rpar : node := Token Tokens.Punctuation ")".
Definition semi : node := Token Tokens.Punctuation ";".
Definition kw (s : string) : node := Token Tokens.Keyword s.
Definition ident (s : string) : node :=
  TokenList Identifier [Token Tokens.Name s].
Definition int (s : string) : node := Token Tokens.Number s.

(** [t(c1, c2, ...)] with the children [cols] of the identifier list *)
Definition target (t : string) (cols : list node) : node :=
  TokenList Function
    [ident t; TokenList Parenthesis [lpar; TokenList IdentifierList cols; rpar]].

Definition tuple (vals : list node) : node :=
  TokenList Parenthesis [lpar; TokenList IdentifierList vals; rpar].

(** [insert into dual(col_str, col_seq, col_int, col_dbl)
     values('foo',myseq.nextval, 42, 123.456);] *)
Definition dual_cols : list node :=
  [ident "col_str"; comma; ws; ident "col_seq"; comma; ws;
   ident "col_int"; comma; ws; ident "col_dbl"].

Definition dual_vals : list node :=
  [Token Tokens.Single "'foo'"; comma;
   TokenList Identifier
     [Token Tokens.Name "myseq"; Token Tokens.Punctuation ".";
      Token Tokens.Name "nextval"];
   comma; ws; int "42"; comma; ws;
   Token ["Literal"; "Number"; "Float"] "123.456"].

Definition test_types : Statement :=
  mkStatement
    [Token Tokens.DML "insert"; ws; kw "into"; ws;
     target "dual" dual_cols;
     ws; kw "values";
     tuple dual_vals;
     semi]
    "INSERT".

(** [insert all into t1(col_a, col_b) values ('v_a', 2)
     into t2(col_d, col_c) values (4, 3);] *)
Definition t1_cols : list node := [ident "col_a"; comma; ws; ident "col_b"].
Definition t1_vals : list node :=
  [Token Tokens.Single "'v_a'"; comma; ws; int "2"].
Definition t2_cols : list node := [ident "col_d"; comma; ws; ident "col_c"].
Definition t2_vals : list node := [int "4"; comma; ws; int "3"].

Definition test_insert_all : Statement :=
  mkStatement
    [Token Tokens.DML "insert"; ws; kw "all"; ws; kw "into"; ws;
     target "t1" t1_cols;
     ws; kw "values"; ws;
     tuple t1_vals;
     ws; kw "into"; ws;
     target "t2" t2_cols;
     ws; kw "values"; ws;
     tuple t2_vals;
     semi]
    "INSERT".

(** [insert into t1(q,r) (select count(1), 42 from dual);] *)
Definition test_subquery : Statement :=
  mkStatement
    [Token Tokens.DML "insert"; ws; kw "into"; ws;
     target "t1" [ident "q"; comma; ident "r"];
     ws;
     TokenList Parenthesis
       [lpar; Token Tokens.DML "select"; ws;
        TokenList IdentifierList
          [TokenList Function
             [ident "count"; TokenList Parenthesis [lpar; int "1"; rpar]];
           comma; ws; int "42"];
        ws; kw "from"; ws; ident "dual"; rpar];
     semi]
    "INSERT".

(** [insert into t1(col1,col2)
     values(to_date('2018-04-30','YYYY-MM-DD'),systimestamp) 1 from dual;] *)
Definition function_cols : list node := [ident "col1"; comma; ident "col2"].

Definition function_vals : list node :=
  [TokenList Function
     [ident "to_date";
      TokenList Parenthesis
        [lpar;
         TokenList IdentifierList
           [Token Tokens.Single "'2018-04-30'"; comma;
            Token Tokens.Single "'YYYY-MM-DD'"];
         rpar]];
   comma; ident "systimestamp"].

Definition test_function : Statement :=
  mkStatement
    [Token Tokens.DML "insert"; ws; kw "into"; ws;
     target "t1" function_cols;
     ws; kw "values";
     tuple function_vals;
     ws; int "1"; ws; kw "from"; ws; ident "dual"; semi]
    "INSERT".

(** [reiteb5yiure] *)
Definition test_error_parsing : Statement :=
  mkStatement [ident "reiteb5yiure"] "UNKNOWN".

(** [select 1 from dual;] *)
Definition test_error_not_update : Statement :=
  mkStatement
    [Token Tokens.DML "select"; ws; int "1"; ws; kw "from"; ws;
     ident "dual"; semi]
    "SELECT".

(** [insert into t1(a, b) values(1, 2, 3);] *)
Definition ab_cols : list node := [ident "a"; comma; ws; ident "b"].


(** [insert into t1(a, b) values(1,] line break [2);] *)
Definition nl : string := String (ascii_of_nat 10) EmptyString.

Definition newline : node := Token Tokens.Newline nl.

Definition line_break_vals : list node := [int "1"; comma; newline; int "2"].

Definition line_break_in_values : Statement :=
  mkStatement
    [Token Tokens.DML "insert"; ws; kw "into"; ws;
     target "t1" ab_cols;
     ws; kw "values";
     tuple line_break_vals;
     semi]
    "INSERT".

(** A column list of two names against a single value. *)
Definition mismatch : Statement :=
  mkStatement
    [Token Tokens.DML "insert"; ws; kw "into"; ws;
     target "t1" [ident "a"; comma; ident "b"];
     ws; kw "values";
     tuple [int "1"];
     semi]
    "INSERT".

(** A target group and a value group that hold no identifier list:
    one name, one value, no comma. *)
Definition no_identifier_list : Statement :=
  mkStatement
    [Token Tokens.DML "insert"; ws; kw "into"; ws;
     TokenList Function
       [ident "t1"; TokenList Parenthesis [lpar; ident "a"; rpar]];
     ws; kw "values";
     TokenList Parenthesis [lpar; int "1"; rpar];
     semi]
    "INSERT".

(** [insert into t1 select 1 from dual;] *)
Definition no_groups : Statement :=
  mkStatement
    [Token Tokens.DML "insert"; ws; kw "into"; ws; ident "t1"; ws;
     Token Tokens.DML "select"; ws; int "1"; ws; kw "from"; ws;
     ident "dual"; semi]
    "INSERT".

End Examples.


(** ** Vocabulary of the specification *)

(** ["{table}.{column}"] *)
Definition qualify (table col : string) : string :=
  (table ++ "." ++ col)%string.

(** A child of the column list is a column when it is an [Identifier]
    token list or a leaf of type [Keyword]. *)
Definition Column (t : node) : Prop :=
  (exists ts, t = TokenList Identifier ts) \/
  (exists v, t = Token Tokens.Keyword v).

Definition is_column (t : node) : bool :=
  match t with
  | TokenList Identifier _ => true
  | TokenList _ _ => false
  | Token ty _ => Tokens.eqb ty Tokens.Keyword
  end.

(** The children of the value list that the loop of lines 65-72 skips:
    the leaves whose type is [Punctuation] itself or [Whitespace]
    itself. *)
Definition is_discarded (t : node) : bool :=
  match t with
  | Token ty _ =>
      Tokens.eqb ty Tokens.Punctuation || Tokens.eqb ty Tokens.Whitespace
  | TokenList _ _ => false
  end.

Definition is_value (t : node) : bool := negb (is_discarded t).

(** The leaves that are punctuation or whitespace for the tokenizer:
    those whose type is [Punctuation] or [Whitespace] or stands below
    one of them, as the line breaks do. *)
Definition punctuation_or_whitespace (t : node) : bool :=
  match t with
  | Token ty _ =>
      Tokens.below Tokens.Punctuation ty || Tokens.below Tokens.Whitespace ty
  | TokenList _ _ => false
  end.

Definition columns_of (cs : list node) : list string :=
  map str (filter is_column cs).

Definition values_of (vs : list node) : list string :=
  map str (filter is_value vs).

(** The pairs of one target/value group with table name [table], column
    list children [cs] and value list children [vs]. *)
Definition pairs_of (table : string) (cs vs : list node)
  : list (string * string) :=
  combine (map (qualify table) (columns_of cs)) (values_of vs).

(** The shape of a target group and a value group from which the
    extractor gets a table node, the children [cs] of a column list and
    the children [vs] of a value list: the target group has exactly two
    token-list children, the second has an [IdentifierList] child, and so
    has the value group. *)
Inductive group_shape
  : node -> node -> node -> list node -> list node -> Prop :=
| GroupShape (c1 c2 c3 : Class) (toks1 toks2 toks3 : list node)
    (t_table : node) (cs vs : list node) :
    filter isinstance_TokenList toks1 = [t_table; TokenList c2 toks2] ->
    find (isinstance IdentifierList) toks2 =
      Some (TokenList IdentifierList cs) ->
    find (isinstance IdentifierList) toks3 =
      Some (TokenList IdentifierList vs) ->
    group_shape (TokenList c1 toks1) (TokenList c3 toks3) t_table cs vs.

(** Solves [group_shape] on closed token trees. *)
Ltac shape := econstructor; reflexivity.

(** The target groups and the value groups of a statement. *)
Definition targetGroups (items : Statement) : list node :=
  filter (isinstance Function) (stmt_tokens items).

Definition valueGroups (items : Statement) : list node :=
  filter (isinstance Parenthesis) (stmt_tokens items).

(** The pairs of a sequence of groups, one group after the other; the
    first group that raises decides the outcome. *)
Fixpoint collect (groups : list (node * node))
  : result (list (string * string)) :=
  match groups with
  | [] => Ok []
  | (t, v) :: rest =>
      r <- tokenize_cols_values t v ;;
      rs <- collect rest ;;
      Ok (r ++ rs)
  end.

(** The record of a successful extraction and of a reported error. *)
Definition columns_record (items : Statement) (l : list (string * string))
  : odict :=
  [("query", VStr (strip (str_stmt items))); ("columns", VPairs l)].

Definition error_record (items : Statement) (msg : string) : odict :=
  [("query", VStr (strip (str_stmt items))); ("error", VStr msg)].

(** A statement is kept by [split_queries] unless its text is entirely
    whitespace. *)
Definition kept (q : Statement) : bool := negb (isspace (str_stmt q)).

Definition default_node : node := Token Tokens.Token "".

(** [targetGroups[i]] with [valueGroups[i]] for [i] below [m]. *)
Definition positional_pairs (T V : list node) (m : nat) : list (node * node) :=
  map (fun i => (nth i T default_node, nth i V default_node)) (seq 0 m).

(** What the extractor finds in one target/value group: the table node
    and the children of the column list and of the value list. *)
Definition group_data : Type := node * list node * list node.

Definition group_pairs (d : group_data) : list (string * string) :=
  let '(t_table, cs, vs) := d in pairs_of (str t_table) cs vs.

(** The number of columns a group declares. *)
Definition declared_columns (d : group_data) : nat :=
  let '(_, cs, _) := d in List.length (columns_of cs).


(** A group of the expected shape whose value count matches its column
    count. *)
Definition well_formed_group (g : node * node) (d : group_data) : Prop :=
  let '(t_table, cs, vs) := d in
  group_shape (fst g) (snd g) t_table cs vs /\
  List.length (values_of vs) = List.length (columns_of cs).

(** The children of a node, none for a leaf. *)
Definition children (t : node) : list node :=
  match t with
  | Token _ _ => []
  | TokenList _ ts => ts
  end.




(** The message of the record of a statement that is no INSERT. *)
Definition error_message (ty : string) : string :=
  if String.eqb ty "UNKNOWN" then "Parsing failed"
  else ("Unsupported query type " ++ ty)%string.

(** Whether a text begins, or ends, with a whitespace character. *)
Definition starts_with_space (s : string) : bool :=
  match s with
  | EmptyString => false
  | String c _ => is_space c
  end.

Fixpoint ends_with_space (s : string) : bool :=
  match s with
  | EmptyString => false
  | String c EmptyString => is_space c
  | String _ s' => ends_with_space s'
  end.

(** The outcome of [tokenize_cols_values] on a target group with
    children [toks1], read off the nodes it looks at: the token-list
    children of the target group, then the first [IdentifierList] child
    of the second of them, then the first [IdentifierList] child of the
    value group, then the two counts. *)
Definition outcome (toks1 : list node) (v : node)
  : result (list (string * string)) :=
  match filter isinstance_TokenList toks1 with
  | [t_table; t_columns] =>
      match find (isinstance IdentifierList) (children t_columns) with
      | None => Raise IndexError
      | Some ci =>
          match v with
          | Token _ _ => Raise TypeError
          | TokenList _ toks3 =>
              match find (isinstance IdentifierList) toks3 with
              | None => Raise IndexError
              | Some vi =>
                  if Nat.eqb (List.length (values_of (children vi)))
                             (List.length (columns_of (children ci)))
                  then Ok (pairs_of (str t_table) (children ci) (children vi))
                  else Raise AssertionError
              end
          end
      end
  | _ => Raise ValueError
  end.

(** A statement whose text is a single blank. *)
Definition blank : Statement := mkStatement [Examples.ws] "UNKNOWN".

(** A target group with a third token list among its children. *)
Definition three_lists_target : node :=
  TokenList Function
    [Examples.ident "t1"; Examples.tuple [Examples.ident "a"];
     Examples.tuple [Examples.ident "b"]].

(** ** Basic facts *)

Lemma Tokens_eqb_eq (a b : Tokens.TokenType) :
  Tokens.eqb a b = true <-> a = b.
Proof.
  revert b; induction a as [|x a IH]; intros [|y b]; simpl;
    try (split; [discriminate | discriminate]); try tauto.
  rewrite andb_true_iff, String.eqb_eq, IH.
  split; [intros [-> ->]; reflexivity | intros H; inversion H; auto].
Qed.

Lemma is_column_iff (t : node) : is_column t = true <-> Column t.
Proof.
  unfold Column; destruct t as [ty v | c ts]; simpl.
  - rewrite Tokens_eqb_eq; split.
    + intros ->; right; eauto.
    + intros [[ts H] | [v' H]]; [discriminate | now inversion H].
  - destruct c; split; try discriminate; try (left; eauto; fail); auto;
      intros [[ts' H] | [v' H]]; discriminate.
Qed.

Lemma columns_test (t : node) :
  isinstance Identifier t || Tokens.is_ (ttype t) Tokens.Keyword = is_column t.
Proof. destruct t as [ty v | [] ts]; reflexivity. Qed.

Lemma values_test (t : node) :
  Tokens.in_ (ttype t) [Tokens.Punctuation; Tokens.Whitespace] = is_discarded t.
Proof.
  destruct t as [ty v | c ts]; simpl; [|reflexivity].
  now rewrite orb_false_r.
Qed.

(** Induction on token trees, with the hypothesis for all the children
    of a token list. *)
Lemma node_ind_children (P : node -> Prop)
  (Hleaf : forall ty v, P (Token ty v))
  (Hlist : forall c ts, Forall P ts -> P (TokenList c ts)) :
  forall t, P t.
Proof.
  fix IH 1.
  intros [ty v | c ts]; [apply Hleaf | apply Hlist].
  induction ts as [|t ts IHts]; constructor; [apply IH | exact IHts].
Qed.

Lemma append_empty_r (s : string) : (s ++ "")%string = s.
Proof. induction s as [|c s IH]; simpl; [reflexivity | now rewrite IH]. Qed.

Lemma append_assoc (a b c : string) :
  ((a ++ b) ++ c)%string = (a ++ (b ++ c))%string.
Proof. induction a as [|x a IH]; simpl; [reflexivity | now rewrite IH]. Qed.

Lemma concat_empty_cons (x : string) (l : list string) :
  String.concat "" (x :: l) = (x ++ String.concat "" l)%string.
Proof. destruct l; simpl; [now rewrite append_empty_r | reflexivity]. Qed.

Lemma concat_empty_app (l1 l2 : list string) :
  String.concat "" (l1 ++ l2) =
  (String.concat "" l1 ++ String.concat "" l2)%string.
Proof.
  induction l1 as [|x l1 IH]; [reflexivity|].
  rewrite <- app_comm_cons, !concat_empty_cons, IH.
  now rewrite append_assoc.
Qed.

(** The text of a node is the texts of all the leaves below it, joined
    in order: nothing inside a kept node is dropped or changed. *)
Lemma str_flatten (t : node) : str t = String.concat "" (flatten t).
Proof.
  induction t as [ty v | c ts IH] using node_ind_children;
    [reflexivity|].
  change (String.concat "" (map str ts) =
          String.concat "" (flat_map flatten ts)).
  induction IH as [|t ts Ht _ IHts]; [reflexivity|].
  cbn [map flat_map].
  rewrite concat_empty_cons, concat_empty_app, Ht.
  f_equal; exact IHts.
Qed.

(** Both tests compare the token type itself: a type below [Keyword]
    is no column name, a type below [Whitespace] is not discarded. *)
Example dml_keyword_is_no_column :
  is_column (Token Tokens.DML "select") = false.
Proof. reflexivity. Qed.

Example newline_is_not_discarded :
  is_discarded (Token Tokens.Newline (String (ascii_of_nat 10) "")) = false.
Proof. reflexivity. Qed.

Lemma fold_left_columns_step (toks : list node) (acc : list string) :
  fold_left columns_step toks acc = acc ++ columns_of toks.
Proof.
  revert acc; induction toks as [|t toks IH]; intros acc; simpl.
  - now rewrite app_nil_r.
  - rewrite IH; unfold columns_step; rewrite columns_test.
    unfold columns_of; simpl.
    destruct (is_column t); simpl; [|reflexivity].
    now rewrite <- app_assoc.
Qed.

Lemma fold_left_values_step (toks : list node) (acc : list string) :
  fold_left values_step toks acc = acc ++ values_of toks.
Proof.
  revert acc; induction toks as [|t toks IH]; intros acc; simpl.
  - now rewrite app_nil_r.
  - rewrite IH; unfold values_step; rewrite values_test.
    unfold values_of, is_value; simpl.
    destruct (is_discarded t); simpl; [reflexivity|].
    now rewrite <- app_assoc.
Qed.

Lemma fold_left_arrays_step (toks a b : list node) :
  fold_left arrays_step toks (a, b) =
  (a ++ filter (isinstance Function) toks,
   b ++ filter (isinstance Parenthesis) toks).
Proof.
  revert a b; induction toks as [|t toks IH]; intros a b; simpl.
  - now rewrite !app_nil_r.
  - destruct t as [ty v | c ts]; simpl; [apply IH|].
    destruct c; simpl; rewrite IH; try reflexivity;
      now rewrite <- app_assoc.
Qed.

Lemma item0_filter {A : Type} (p : A -> bool) (l : list A) :
  item0 (filter p l) =
  match find p l with
  | Some x => Ok x
  | None => Raise IndexError
  end.
Proof.
  induction l as [|x l IH]; simpl; [reflexivity|].
  destruct (p x); simpl; auto.
Qed.

Lemma find_IdentifierList (toks : list node) (x : node) :
  find (isinstance IdentifierList) toks = Some x ->
  exists cs, x = TokenList IdentifierList cs.
Proof.
  intros H; apply find_some in H as [_ H].
  destruct x as [ty v | [] cs]; try discriminate; eauto.
Qed.

(** ** One target/value group *)


(** On a pair of the expected shape the extractor reaches the
    assertion, which decides between the pairs and [AssertionError]. *)
Lemma tokenize_cols_values_shape (t v t_table : node) (cs vs : list node) :
  group_shape t v t_table cs vs ->
  tokenize_cols_values t v =
  if Nat.eqb (List.length (values_of vs)) (List.length (columns_of cs))
  then Ok (pairs_of (str t_table) cs vs)
  else Raise AssertionError.
Proof.
  intros [c1 c2 c3 toks1 toks2 toks3 tt' cs' vs' Hf Hc Hv].
  unfold tokenize_cols_values; simpl.
  rewrite Hf; simpl.
  rewrite item0_filter, Hc; simpl.
  rewrite item0_filter, Hv; simpl.
  rewrite fold_left_columns_step, fold_left_values_step; simpl.
  unfold assert.
  destruct (Nat.eqb _ _); reflexivity.
Qed.

(** Conversely the extractor returns pairs for no other shape. *)
Lemma tokenize_cols_values_Ok (t v : node) (r : list (string * string)) :
  tokenize_cols_values t v = Ok r ->
  exists t_table cs vs,
    group_shape t v t_table cs vs /\
    List.length (columns_of cs) = List.length (values_of vs) /\
    r = pairs_of (str t_table) cs vs.
Proof.
  unfold tokenize_cols_values.
  destruct t as [ty s | c1 toks1]; simpl; [discriminate|].
  destruct (filter isinstance_TokenList toks1) as [|t_table [|t_columns [|x l]]] eqn:Hf;
    simpl; try discriminate.
  assert (Hcol : isinstance_TokenList t_columns = true).
  { assert (Hin : In t_columns (filter isinstance_TokenList toks1))
      by (rewrite Hf; simpl; auto).
    now apply filter_In in Hin. }
  destruct t_columns as [ty s | c2 toks2]; [discriminate|]; simpl.
  rewrite item0_filter.
  destruct (find (isinstance IdentifierList) toks2) as [ci|] eqn:Hc;
    simpl; [|discriminate].
  destruct (find_IdentifierList _ _ Hc) as [cs ->]; simpl.
  destruct v as [ty s | c3 toks3]; simpl; [discriminate|].
  rewrite item0_filter.
  destruct (find (isinstance IdentifierList) toks3) as [vi|] eqn:Hv;
    simpl; [|discriminate].
  destruct (find_IdentifierList _ _ Hv) as [vs ->]; simpl.
  rewrite fold_left_columns_step, fold_left_values_step; simpl.
  unfold assert.
  destruct (Nat.eqb _ _) eqn:Hlen; simpl; [|discriminate].
  intros H; inversion H; subst; clear H.
  exists t_table, cs, vs; repeat split.
  - econstructor; eassumption.
  - symmetry; now apply Nat.eqb_eq.
Qed.

Lemma length_pairs_of (table : string) (cs vs : list node) :
  List.length (columns_of cs) = List.length (values_of vs) ->
  List.length (pairs_of table cs vs) = List.length (columns_of cs).
Proof.
  intros H; unfold pairs_of.
  rewrite length_combine, length_map, <- H.
  apply Nat.min_id.
Qed.

Lemma fst_pairs_of (table : string) (cs vs : list node) :
  List.length (columns_of cs) = List.length (values_of vs) ->
  map fst (pairs_of table cs vs) = map (qualify table) (columns_of cs).
Proof.
  intros H; unfold pairs_of.
  generalize dependent (values_of vs).
  generalize (columns_of cs) as l.
  induction l as [|c l IH]; intros [|w ws] H; simpl in *; try discriminate;
    [reflexivity|].
  f_equal; apply IH; now inversion H.
Qed.

Lemma snd_pairs_of (table : string) (cs vs : list node) :
  List.length (columns_of cs) = List.length (values_of vs) ->
  map snd (pairs_of table cs vs) = values_of vs.
Proof.
  intros H; unfold pairs_of.
  generalize dependent (values_of vs).
  generalize (columns_of cs) as l.
  induction l as [|c l IH]; intros [|w ws] H; simpl in *; try discriminate;
    [reflexivity|].
  f_equal; apply IH; now inversion H.
Qed.

(** ** The loop over the groups *)

Lemma for_zip_collect (zipped : list (node * node))
  (acc : list (string * string)) :
  for_zip zipped acc = (rs <- collect zipped ;; Ok (acc ++ rs)).
Proof.
  revert acc; induction zipped as [|[t v] rest IH]; intros acc; simpl.
  - now rewrite app_nil_r.
  - destruct (tokenize_cols_values t v) as [r|e]; simpl; [|reflexivity].
    rewrite IH.
    destruct (collect rest) as [rs|e]; simpl; [|reflexivity].
    now rewrite app_assoc.
Qed.

Lemma collect_app (g1 g2 : list (node * node)) :
  collect (g1 ++ g2) =
  (r1 <- collect g1 ;; r2 <- collect g2 ;; Ok (r1 ++ r2)).
Proof.
  induction g1 as [|[t v] g1 IH]; simpl.
  - destruct (collect g2); reflexivity.
  - destruct (tokenize_cols_values t v) as [r|e]; simpl; [|reflexivity].
    rewrite IH.
    destruct (collect g1) as [r1|e]; simpl; [|reflexivity].
    destruct (collect g2) as [r2|e]; simpl; [|reflexivity].
    now rewrite app_assoc.
Qed.

(** When every group returns its pairs, the loop returns them joined in
    the order of the groups. *)
Lemma collect_Forall2 (groups : list (node * node))
  (rs : list (list (string * string))) :
  Forall2 (fun g r => tokenize_cols_values (fst g) (snd g) = Ok r) groups rs ->
  collect groups = Ok (List.concat rs).
Proof.
  induction 1 as [|[t v] r groups rs Hr _ IH]; simpl in *; [reflexivity|].
  now rewrite Hr, IH.
Qed.

(** The first group that raises stops the loop with its exception. *)
Lemma collect_first_raise (pre post : list (node * node)) (t v : node)
  (e : exn) :
  Forall (fun g => exists r, tokenize_cols_values (fst g) (snd g) = Ok r) pre ->
  tokenize_cols_values t v = Raise e ->
  collect (pre ++ (t, v) :: post) = Raise e.
Proof.
  intros Hpre Hraise.
  induction Hpre as [|[t' v'] pre [r Hr] _ IH]; simpl in *.
  - now rewrite Hraise.
  - now rewrite Hr, IH.
Qed.

(** A group that raises anywhere leaves the loop without pairs. *)
Lemma collect_some_raise (groups : list (node * node)) (t v : node) (e : exn) :
  In (t, v) groups ->
  tokenize_cols_values t v = Raise e ->
  exists e', collect groups = Raise e'.
Proof.
  induction groups as [|[t' v'] rest IH]; simpl; [tauto|].
  intros [Heq | Hin] Hraise.
  - inversion Heq; subst; rewrite Hraise; simpl; eauto.
  - destruct (tokenize_cols_values t' v'); simpl; eauto.
    destruct (IH Hin Hraise) as [e' ->]; simpl; eauto.
Qed.

(** ** One statement *)

Lemma extract_col_values_INSERT (items : Statement) :
  get_type items = "INSERT" ->
  extract_col_values items =
  (col_value_pairs <- collect (combine (targetGroups items) (valueGroups items)) ;;
   Ok (columns_record items col_value_pairs)).
Proof.
  intros H; unfold extract_col_values; rewrite H; simpl.
  rewrite fold_left_arrays_step; simpl.
  rewrite for_zip_collect.
  fold (targetGroups items) (valueGroups items).
  destruct (collect _); reflexivity.
Qed.

Lemma extract_col_values_UNKNOWN (items : Statement) :
  get_type items = "UNKNOWN" ->
  extract_col_values items = Ok (error_record items "Parsing failed").
Proof.
  intros H; unfold extract_col_values; rewrite H; reflexivity.
Qed.

Lemma extract_col_values_other (items : Statement) :
  get_type items <> "UNKNOWN" ->
  get_type items <> "INSERT" ->
  extract_col_values items =
  Ok (error_record items ("Unsupported query type " ++ get_type items)%string).
Proof.
  intros H1 H2; unfold extract_col_values.
  apply String.eqb_neq in H1, H2; rewrite H1, H2; reflexivity.
Qed.

(** ** The list of statements *)

Lemma split_queries_cons (q : Statement) (rest : list Statement) :
  split_queries (q :: rest) =
  if kept q
  then r <- extract_col_values q ;; rs <- split_queries rest ;; Ok (r :: rs)
  else split_queries rest.
Proof. reflexivity. Qed.

Lemma split_queries_first_raise (pre post : list Statement) (q : Statement)
  (e : exn) :
  Forall (fun p => exists r, extract_col_values p = Ok r) pre ->
  kept q = true ->
  extract_col_values q = Raise e ->
  split_queries (pre ++ q :: post) = Raise e.
Proof.
  intros Hpre Hk Hraise.
  induction Hpre as [|p pre [r Hr] _ IH]; simpl in *.
  - fold (kept q); now rewrite Hk, Hraise.
  - rewrite Hr, IH; destruct (negb _); reflexivity.
Qed.

Lemma split_queries_some_raise (items : list Statement) (q : Statement)
  (e : exn) :
  In q items ->
  kept q = true ->
  extract_col_values q = Raise e ->
  exists e', split_queries items = Raise e'.
Proof.
  induction items as [|p rest IH]; simpl; [tauto|].
  intros [Heq | Hin] Hk Hraise.
  - subst p; fold (kept q); rewrite Hk, Hraise; simpl; eauto.
  - destruct (IH Hin Hk Hraise) as [e' He'].
    rewrite He'.
    destruct (negb _); eauto.
    destruct (extract_col_values p); simpl; eauto.
Qed.

(** ** A pair that raises *)

(** Nothing between [tokenize_cols_values] and the caller of
    [split_queries] catches an exception: a processed pair that raises
    leaves its statement without record and the run without list. *)
Section RaisingPair.

Variables (items : list Statement) (q : Statement) (t v : node) (e : exn).

Hypothesis q_in_run : In q items.
Hypothesis q_kept : kept q = true.
Hypothesis q_insert : get_type q = "INSERT".
Hypothesis pair_processed :
  In (t, v) (combine (targetGroups q) (valueGroups q)).
Hypothesis pair_raises : tokenize_cols_values t v = Raise e.

Lemma raising_pair_no_record : exists e', extract_col_values q = Raise e'.
Proof.
  rewrite (extract_col_values_INSERT _ q_insert).
  destruct (collect_some_raise _ _ _ _ pair_processed pair_raises) as [e' ->].
  simpl; eauto.
Qed.

Lemma raising_pair_no_list : exists e', split_queries items = Raise e'.
Proof.
  destruct raising_pair_no_record as [e' He'].
  exact (split_queries_some_raise _ _ _ q_in_run q_kept He').
Qed.

Lemma first_raising_pair (pre post : list (node * node)) :
  combine (targetGroups q) (valueGroups q) = pre ++ (t, v) :: post ->
  Forall (fun g => exists r, tokenize_cols_values (fst g) (snd g) = Ok r) pre ->
  extract_col_values q = Raise e.
Proof.
  intros Hpairs Hpre.
  rewrite (extract_col_values_INSERT _ q_insert), Hpairs.
  now rewrite (collect_first_raise _ _ _ _ _ Hpre pair_raises).
Qed.

Lemma raising_pair_aborts_run :
  (exists e', extract_col_values q = Raise e') /\
  (exists e', split_queries items = Raise e') /\
  (forall pre post,
     combine (targetGroups q) (valueGroups q) = pre ++ (t, v) :: post ->
     Forall (fun g => exists r, tokenize_cols_values (fst g) (snd g) = Ok r)
       pre ->
     extract_col_values q = Raise e /\
     forall before after,
       items = before ++ q :: after ->
       Forall (fun p => exists r, extract_col_values p = Ok r) before ->
       split_queries items = Raise e).
Proof.
  split; [exact raising_pair_no_record|].
  split; [exact raising_pair_no_list|].
  intros pre post Hpairs Hpre.
  pose proof (first_raising_pair pre post Hpairs Hpre) as He.
  split; [exact He|].
  intros before after Hitems Hbefore; rewrite Hitems.
  now apply split_queries_first_raise.
Qed.

End RaisingPair.

Lemma combine_positional_pairs (T V : list node) :
  combine T V =
  positional_pairs T V (Nat.min (List.length T) (List.length V)).
Proof.
  unfold positional_pairs.
  revert V; induction T as [|t T IH]; intros [|v V]; simpl; try reflexivity.
  f_equal.
  rewrite <- seq_shift, map_map.
  apply IH.
Qed.

Lemma well_formed_group_Ok (g : node * node) (d : group_data) :
  well_formed_group g d ->
  tokenize_cols_values (fst g) (snd g) = Ok (group_pairs d).
Proof.
  destruct d as [[t_table cs] vs]; intros [Hs Hl]; simpl.
  rewrite (tokenize_cols_values_shape _ _ _ _ _ Hs), Hl, Nat.eqb_refl.
  reflexivity.
Qed.

Lemma collect_Ok (groups : list (node * node)) (l : list (string * string)) :
  collect groups = Ok l ->
  exists data,
    Forall2 well_formed_group groups data /\
    l = List.concat (map group_pairs data).
Proof.
  revert l; induction groups as [|[t v] rest IH]; intros l; simpl.
  - intros H; inversion H; exists []; split; [constructor | reflexivity].
  - destruct (tokenize_cols_values t v) as [r|e] eqn:Ht; simpl; [|discriminate].
    destruct (collect rest) as [rs|e]; simpl; [|discriminate].
    intros H; inversion H; subst; clear H.
    destruct (tokenize_cols_values_Ok _ _ _ Ht)
      as (t_table & cs & vs & Hs & Hl & ->).
    destruct (IH rs eq_refl) as (data & Hd & ->).
    exists ((t_table, cs, vs) :: data); split; [|reflexivity].
    constructor; [|exact Hd].
    split; [exact Hs | now symmetry].
Qed.




(** * Properties of the extraction *)




(** C2. Structural mismatch.  When a target/value pair that the
    extractor processes has the expected shape but its number of
    columns differs from its number of values, the pair raises
    [AssertionError]; the statement then returns no record and the run
    over the list of statements returns no list of records.  When the
    pair is the first one of its statement to raise, and the statement
    the first one of the run, the exception of the run is that
    [AssertionError]. *)
Theorem structural_mismatch_aborts_run
  (items : list Statement) (q : Statement) (t v t_table : node)
  (cs vs : list node) :
  In q items ->
  kept q = true ->
  get_type q = "INSERT" ->
  In (t, v) (combine (targetGroups q) (valueGroups q)) ->
  group_shape t v t_table cs vs ->
  List.length (columns_of cs) <> List.length (values_of vs) ->
  tokenize_cols_values t v = Raise AssertionError /\
  (exists e, extract_col_values q = Raise e) /\
  (exists e, split_queries items = Raise e) /\
  (forall pre post,
     combine (targetGroups q) (valueGroups q) = pre ++ (t, v) :: post ->
     Forall (fun g => exists r, tokenize_cols_values (fst g) (snd g) = Ok r)
       pre ->
     extract_col_values q = Raise AssertionError /\
     forall before after,
       items = before ++ q :: after ->
       Forall (fun p => exists r, extract_col_values p = Ok r) before ->
       split_queries items = Raise AssertionError).
Proof.
  intros Hq Hk Hins Hin Hs Hl.
  assert (Ht : tokenize_cols_values t v = Raise AssertionError).
  { rewrite (tokenize_cols_values_shape _ _ _ _ _ Hs).
    destruct (Nat.eqb _ _) eqn:E; [|reflexivity].
    apply Nat.eqb_eq in E; congruence. }
  split; [exact Ht|].
  exact (raising_pair_aborts_run items q t v _ Hq Hk Hins Hin Ht).
Qed.

Lemma structural_mismatch_aborts_run_witness :
  tokenize_cols_values
    (Examples.target "t1"
       [Examples.ident "a"; Examples.comma; Examples.ident "b"])
    (Examples.tuple [Examples.int "1"]) = Raise AssertionError /\
  (exists e,
     split_queries
       [Examples.test_error_not_update; Examples.mismatch;
        Examples.test_types] = Raise e).
Proof.
  pose proof (structural_mismatch_aborts_run
    [Examples.test_error_not_update; Examples.mismatch; Examples.test_types]
    Examples.mismatch
    (Examples.target "t1"
       [Examples.ident "a"; Examples.comma; Examples.ident "b"])
    (Examples.tuple [Examples.int "1"])
    (Examples.ident "t1")
    [Examples.ident "a"; Examples.comma; Examples.ident "b"]
    [Examples.int "1"]) as H.
  assert (Hshape : group_shape
    (Examples.target "t1"
       [Examples.ident "a"; Examples.comma; Examples.ident "b"])
    (Examples.tuple [Examples.int "1"])
    (Examples.ident "t1")
    [Examples.ident "a"; Examples.comma; Examples.ident "b"]
    [Examples.int "1"]) by shape.
  assert (Hlen : List.length
            (columns_of
               [Examples.ident "a"; Examples.comma; Examples.ident "b"]) <>
          List.length (values_of [Examples.int "1"]))
    by (simpl; discriminate).
  destruct (H (or_intror (or_introl eq_refl)) eq_refl eq_refl
              (or_introl eq_refl) Hshape Hlen) as (Ht & _ & Hs & _).
  exact (conj Ht Hs).
Defined.



(** C4. Every record that [extract_col_values] returns carries the
    query and exactly one of the keys [columns] and [error]: the keys
    are [query, error] for a statement of type UNKNOWN or of a type
    other than INSERT, for which a record is always returned, and
    [query, columns] for an INSERT statement. *)
Theorem record_has_exactly_one_of_columns_error (items : Statement) :
  (get_type items <> "INSERT" -> exists r, extract_col_values items = Ok r) /\
  (forall r : odict,
     extract_col_values items = Ok r ->
     getitem r "query" = Some (VStr (strip (str_stmt items))) /\
     xorb (has_key r "columns") (has_key r "error") = true /\
     keys r = if String.eqb (get_type items) "INSERT"
              then ["query"; "columns"]
              else ["query"; "error"]).
Proof.
  split.
  - intros Hn.
    destruct (String.eqb_spec (get_type items) "UNKNOWN") as [Hu | Hu].
    + rewrite (extract_col_values_UNKNOWN _ Hu); eauto.
    + rewrite (extract_col_values_other _ Hu Hn); eauto.
  - intros r.
    destruct (String.eqb_spec (get_type items) "INSERT") as [Hi | Hi].
    + rewrite (extract_col_values_INSERT _ Hi).
      destruct (collect _) as [cvp | e]; simpl; [|discriminate].
      intros H; inversion H; subst; clear H.
      repeat split.
    + destruct (String.eqb_spec (get_type items) "UNKNOWN") as [Hu | Hu].
      * rewrite (extract_col_values_UNKNOWN _ Hu).
        intros H; inversion H; subst; clear H.
        repeat split.
      * rewrite (extract_col_values_other _ Hu Hi).
        intros H; inversion H; subst; clear H.
        repeat split.
Qed.

Lemma record_has_exactly_one_of_columns_error_witness :
  keys (error_record Examples.test_error_not_update
          "Unsupported query type SELECT") = ["query"; "error"] /\
  keys (columns_record Examples.test_subquery
          [("t1.q", "count(1)"); ("t1.r", "42")]) = ["query"; "columns"].
Proof.
  split.
  - exact (proj2 (proj2
      (proj2 (record_has_exactly_one_of_columns_error
                Examples.test_error_not_update) _ eq_refl))).
  - exact (proj2 (proj2
      (proj2 (record_has_exactly_one_of_columns_error
                Examples.test_subquery) _ eq_refl))).
Defined.

(** C5. Bucketing and positional pairing.  For an INSERT statement the
    loop over the top-level children leaves in the first array the
    [Function] children and in the second the [Parenthesis] children,
    each in order of appearance; the pairs extracted are those of
    [targetGroups[i]] with [valueGroups[i]] for [i] from 0 up to the
    shorter of the two lengths, in that order, so that groups beyond the
    shorter array take no part. *)
Theorem groups_bucketed_and_paired_positionally (items : Statement) :
  get_type items = "INSERT" ->
  let T := filter (isinstance Function) (stmt_tokens items) in
  let V := filter (isinstance Parenthesis) (stmt_tokens items) in
  fold_left arrays_step (stmt_tokens items) ([], []) = (T, V) /\
  extract_col_values items =
    (col_value_pairs <-
       collect (positional_pairs T V (Nat.min (List.length T) (List.length V))) ;;
     Ok (columns_record items col_value_pairs)).
Proof.
  intros Hins T V; split.
  - apply fold_left_arrays_step.
  - rewrite (extract_col_values_INSERT _ Hins).
    unfold targetGroups, valueGroups; fold T V.
    now rewrite combine_positional_pairs.
Qed.

Lemma groups_bucketed_and_paired_positionally_witness :
  fold_left arrays_step (stmt_tokens Examples.test_insert_all) ([], []) =
    ([Examples.target "t1" Examples.t1_cols;
      Examples.target "t2" Examples.t2_cols],
     [Examples.tuple Examples.t1_vals; Examples.tuple Examples.t2_vals]) /\
  extract_col_values Examples.test_insert_all =
    (col_value_pairs <-
       collect
         [(Examples.target "t1" Examples.t1_cols,
           Examples.tuple Examples.t1_vals);
          (Examples.target "t2" Examples.t2_cols,
           Examples.tuple Examples.t2_vals)] ;;
     Ok (columns_record Examples.test_insert_all col_value_pairs)).
Proof.
  exact (groups_bucketed_and_paired_positionally
           Examples.test_insert_all eq_refl).
Defined.

(** C6. Column filter.  A child of the column list is kept exactly when
    it is an [Identifier] token list or a leaf of type [Keyword]; the
    column names are the source texts of the kept children, in their
    order; and for a group of the expected shape with as many values as
    columns, these names, qualified by the table, are the first
    components of the pairs returned. *)
Theorem columns_are_identifiers_and_keywords :
  (forall t : node, is_column t = true <-> Column t) /\
  (forall toks : list node,
     fold_left columns_step toks [] = map str (filter is_column toks)) /\
  (forall (t v t_table : node) (cs vs : list node),
     group_shape t v t_table cs vs ->
     List.length (values_of vs) = List.length (columns_of cs) ->
     exists r,
       tokenize_cols_values t v = Ok r /\
       map fst r =
         map (fun c => qualify (str t_table) (str c)) (filter is_column cs)).
Proof.
  split; [exact is_column_iff|]; split.
  - intros toks; now rewrite fold_left_columns_step.
  - intros t v t_table cs vs Hs Hl.
    exists (pairs_of (str t_table) cs vs); split.
    + now rewrite (tokenize_cols_values_shape _ _ _ _ _ Hs), Hl, Nat.eqb_refl.
    + rewrite fst_pairs_of by auto.
      unfold columns_of; now rewrite map_map.
Qed.

Lemma columns_are_identifiers_and_keywords_witness :
  fold_left columns_step
    [Examples.ident "id"; Examples.comma; Examples.ws; Examples.kw "level";
     Examples.comma; Token Tokens.DML "select"; Examples.int "1"] [] =
    ["id"; "level"] /\
  exists r,
    tokenize_cols_values (Examples.target "dual" Examples.dual_cols)
      (Examples.tuple Examples.dual_vals) = Ok r /\
    map fst r = ["dual.col_str"; "dual.col_seq"; "dual.col_int"; "dual.col_dbl"].
Proof.
  destruct columns_are_identifiers_and_keywords as (_ & Hloop & Hgroup).
  split.
  - exact (Hloop _).
  - refine (Hgroup _ _ (Examples.ident "dual") Examples.dual_cols
              Examples.dual_vals _ eq_refl).
    shape.
Defined.

(** C7.  The value filter keeps a line break.  The loop of lines 65-72
    skips a leaf only when its type is [Punctuation] itself or
    [Whitespace] itself; the leaf of a line break has a type below
    [Whitespace] and is whitespace for the tokenizer, yet it is kept as
    a value.  So the two-column statement
    [insert into t1(a, b) values(1,] line break [2);] has three values,
    the assertion of line 76 fails and the run over any list of
    statements that holds it returns no list; against three columns the
    line break is the value of the second. *)
Theorem line_break_is_kept_as_value :
  punctuation_or_whitespace Examples.newline = true /\
  is_discarded Examples.newline = false /\
  fold_left values_step Examples.line_break_vals [] =
    ["1"; Examples.nl; "2"] /\
  tokenize_cols_values (Examples.target "t1" Examples.ab_cols)
    (Examples.tuple Examples.line_break_vals) = Raise AssertionError /\
  extract_col_values Examples.line_break_in_values = Raise AssertionError /\
  split_queries
    [Examples.test_error_not_update; Examples.line_break_in_values;
     Examples.test_types] = Raise AssertionError /\
  tokenize_cols_values
    (Examples.target "t1"
       [Examples.ident "a"; Examples.comma; Examples.ident "b";
        Examples.comma; Examples.ident "c"])
    (Examples.tuple Examples.line_break_vals) =
  Ok [("t1.a", "1"); ("t1.b", Examples.nl); ("t1.c", "2")].
Proof.
  split; [reflexivity|].
  split; [reflexivity|].
  split; [now rewrite fold_left_values_step|].
  split; [reflexivity|].
  split; [reflexivity|].
  split; reflexivity.
Qed.

Lemma split_queries_app (l1 l2 : list Statement) :
  split_queries (l1 ++ l2) =
  (r1 <- split_queries l1 ;; r2 <- split_queries l2 ;; Ok (r1 ++ r2)).
Proof.
  induction l1 as [|q l1 IH]; simpl.
  - destruct (split_queries l2); reflexivity.
  - rewrite IH.
    destruct (negb _); [|reflexivity].
    destruct (extract_col_values q) as [r|e]; simpl; [|reflexivity].
    destruct (split_queries l1) as [r1|e]; simpl; [|reflexivity].
    destruct (split_queries l2) as [r2|e]; reflexivity.
Qed.

(** C8. Statement-scoped errors.  A statement of type UNKNOWN gets the
    record with error "Parsing failed", and a statement of any other
    type than INSERT the record with error "Unsupported query type "
    followed by that type.  In a run, such a statement contributes this
    one record at its place, between the records of the statements
    before it and of those after it, which are processed as they would
    be without it. *)
Theorem errors_are_statement_scoped
  (before after : list Statement) (q : Statement) :
  get_type q <> "INSERT" ->
  let msg := if String.eqb (get_type q) "UNKNOWN"
             then "Parsing failed"
             else ("Unsupported query type " ++ get_type q)%string in
  extract_col_values q = Ok (error_record q msg) /\
  (kept q = true ->
   split_queries (before ++ q :: after) =
     (r1 <- split_queries before ;;
      r2 <- split_queries after ;;
      Ok (r1 ++ error_record q msg :: r2))).
Proof.
  intros Hn msg.
  assert (He : extract_col_values q = Ok (error_record q msg)).
  { subst msg.
    destruct (String.eqb_spec (get_type q) "UNKNOWN") as [Hu | Hu].
    - now apply extract_col_values_UNKNOWN.
    - now apply extract_col_values_other. }
  split; [exact He|].
  intros Hk.
  rewrite split_queries_app, split_queries_cons, Hk, He; simpl.
  destruct (split_queries before) as [r1|e]; simpl; [|reflexivity].
  destruct (split_queries after) as [r2|e]; reflexivity.
Qed.

Lemma errors_are_statement_scoped_witness :
  split_queries
    [Examples.test_error_parsing; Examples.test_error_not_update;
     Examples.test_subquery] =
  Ok [error_record Examples.test_error_parsing "Parsing failed";
      error_record Examples.test_error_not_update
        "Unsupported query type SELECT";
      columns_record Examples.test_subquery
        [("t1.q", "count(1)"); ("t1.r", "42")]] /\
  extract_col_values Examples.test_error_parsing =
    Ok (error_record Examples.test_error_parsing "Parsing failed").
Proof.
  assert (Hselect : get_type Examples.test_error_not_update <> "INSERT")
    by discriminate.
  assert (Hunknown : get_type Examples.test_error_parsing <> "INSERT")
    by discriminate.
  split.
  - exact (eq_trans
      (proj2 (errors_are_statement_scoped
                [Examples.test_error_parsing] [Examples.test_subquery]
                Examples.test_error_not_update Hselect) eq_refl) eq_refl).
  - exact (proj1 (errors_are_statement_scoped
                    [] [] Examples.test_error_parsing Hunknown)).
Defined.

(** C9. Missing identifier list.  When a target/value pair that the
    extractor processes has a target group with its two token-list
    children, and the second of them (the column wrapper) or the value
    group has no [IdentifierList] child, the pair raises [IndexError],
    which is not the [AssertionError] of a structural mismatch; the
    statement then returns no record, neither with columns nor with an
    error, and the run returns no list of records.  When the pair is
    the first of its statement to raise and the statement the first of
    the run, the exception of the run is that [IndexError]. *)
Theorem missing_identifier_list_aborts_run
  (items : list Statement) (q : Statement) (t v t_table t_columns : node) :
  In q items ->
  kept q = true ->
  get_type q = "INSERT" ->
  In (t, v) (combine (targetGroups q) (valueGroups q)) ->
  filter isinstance_TokenList (children t) = [t_table; t_columns] ->
  find (isinstance IdentifierList) (children t_columns) = None \/
  find (isinstance IdentifierList) (children v) = None ->
  tokenize_cols_values t v = Raise IndexError /\
  IndexError <> AssertionError /\
  (exists e, extract_col_values q = Raise e) /\
  (exists e, split_queries items = Raise e) /\
  (forall pre post,
     combine (targetGroups q) (valueGroups q) = pre ++ (t, v) :: post ->
     Forall (fun g => exists r, tokenize_cols_values (fst g) (snd g) = Ok r)
       pre ->
     extract_col_values q = Raise IndexError /\
     forall before after,
       items = before ++ q :: after ->
       Forall (fun p => exists r, extract_col_values p = Ok r) before ->
       split_queries items = Raise IndexError).
Proof.
  intros Hq Hk Hins Hin Hf Hnone.
  assert (Ht : tokenize_cols_values t v = Raise IndexError).
  { apply in_combine_l in Hin as HinT; apply in_combine_r in Hin as HinV.
    apply filter_In in HinT as [_ HT]; apply filter_In in HinV as [_ HV].
    destruct t as [ty s | c1 toks1]; [discriminate|].
    destruct v as [ty s | c3 toks3]; [discriminate|].
    simpl in Hf, Hnone.
    assert (Hcol : isinstance_TokenList t_columns = true).
    { assert (Hin' : In t_columns (filter isinstance_TokenList toks1))
        by (rewrite Hf; simpl; auto).
      now apply filter_In in Hin'. }
    destruct t_columns as [ty s | c2 toks2]; [discriminate|].
    simpl in Hnone.
    unfold tokenize_cols_values; simpl.
    rewrite Hf; simpl.
    rewrite item0_filter.
    destruct (find (isinstance IdentifierList) toks2) as [ci|] eqn:Hc;
      simpl; [|reflexivity].
    destruct Hnone as [Hnone | Hnone]; [discriminate|].
    destruct (find_IdentifierList _ _ Hc) as [cs ->]; simpl.
    now rewrite item0_filter, Hnone. }
  split; [exact Ht|]; split; [congruence|].
  exact (raising_pair_aborts_run items q t v _ Hq Hk Hins Hin Ht).
Qed.

Lemma missing_identifier_list_aborts_run_witness :
  extract_col_values Examples.no_identifier_list = Raise IndexError /\
  split_queries [Examples.test_error_parsing; Examples.no_identifier_list] =
    Raise IndexError.
Proof.
  destruct (missing_identifier_list_aborts_run
    [Examples.test_error_parsing; Examples.no_identifier_list]
    Examples.no_identifier_list
    (TokenList Function
       [Examples.ident "t1";
        TokenList Parenthesis
          [Examples.lpar; Examples.ident "a"; Examples.rpar]])
    (TokenList Parenthesis [Examples.lpar; Examples.int "1"; Examples.rpar])
    (Examples.ident "t1")
    (TokenList Parenthesis [Examples.lpar; Examples.ident "a"; Examples.rpar])
    (or_intror (or_introl eq_refl)) eq_refl eq_refl (or_introl eq_refl)
    eq_refl (or_introl eq_refl)) as (_ & _ & _ & _ & Hfirst).
  destruct (Hfirst [] [] eq_refl (Forall_nil _)) as [He Hrun].
  split; [exact He|].
  apply (Hrun [Examples.test_error_parsing] []); [reflexivity|].
  constructor; [|constructor].
  eexists; reflexivity.
Defined.

(** C10. An INSERT statement whose top-level children hold no
    [Function] token list and no [Parenthesis] token list gets the
    record with an empty sequence of columns, and no error. *)
Theorem insert_without_groups_has_no_columns (items : Statement) :
  get_type items = "INSERT" ->
  filter (isinstance Function) (stmt_tokens items) = [] ->
  filter (isinstance Parenthesis) (stmt_tokens items) = [] ->
  extract_col_values items = Ok (columns_record items []) /\
  has_key (columns_record items []) "error" = false.
Proof.
  intros Hins HT HV; split; [|reflexivity].
  rewrite (extract_col_values_INSERT _ Hins).
  unfold targetGroups, valueGroups; now rewrite HT, HV.
Qed.

Lemma insert_without_groups_has_no_columns_witness :
  extract_col_values Examples.no_groups =
    Ok [("query", VStr "insert into t1 select 1 from dual;");
        ("columns", VPairs [])].
Proof.
  exact (proj1 (insert_without_groups_has_no_columns
                  Examples.no_groups eq_refl eq_refl eq_refl)).
Defined.

(** * Further properties of the script *)

(** ** Outcomes of one target/value group *)

Lemma filter_TokenList_children (toks : list node) (x : node) :
  In x (filter isinstance_TokenList toks) ->
  exists c ts, x = TokenList c ts.
Proof.
  intros H; apply filter_In in H as [_ H].
  destruct x as [ty s | c ts]; [discriminate | eauto].
Qed.

Lemma tokenize_cols_values_outcome (c1 : Class) (toks1 : list node) (v : node) :
  tokenize_cols_values (TokenList c1 toks1) v = outcome toks1 v.
Proof.
  unfold tokenize_cols_values, outcome; simpl.
  destruct (filter isinstance_TokenList toks1)
    as [|t_table [|t_columns [|x l]]] eqn:Hf; try reflexivity.
  destruct (filter_TokenList_children toks1 t_columns) as (c2 & toks2 & ->);
    [rewrite Hf; simpl; auto|].
  simpl; rewrite item0_filter.
  destruct (find (isinstance IdentifierList) toks2) as [ci|] eqn:Hc;
    [|reflexivity].
  destruct (find_IdentifierList _ _ Hc) as [cs ->]; simpl.
  destruct v as [ty s | c3 toks3]; [reflexivity|]; simpl.
  rewrite item0_filter.
  destruct (find (isinstance IdentifierList) toks3) as [vi|] eqn:Hv;
    [|reflexivity].
  destruct (find_IdentifierList _ _ Hv) as [vs ->]; simpl.
  rewrite fold_left_columns_step, fold_left_values_step; simpl.
  unfold assert; destruct (Nat.eqb _ _); reflexivity.
Qed.

(** X7. The extractor raises [ValueError] exactly when the target group
    is a token list whose token-list children are not two in number,
    whatever the value group is. *)
Theorem ValueError_iff_not_two_token_lists (t v : node) :
  tokenize_cols_values t v = Raise ValueError <->
  exists c toks,
    t = TokenList c toks /\
    List.length (filter isinstance_TokenList toks) <> 2.
Proof.
  split.
  - destruct t as [ty s | c toks]; [discriminate|].
    rewrite tokenize_cols_values_outcome; unfold outcome.
    intros H; exists c, toks; split; [reflexivity|].
    destruct (filter isinstance_TokenList toks) as [|a [|b [|x l]]];
      simpl; try lia.
    destruct (find _ (children b)); [|discriminate].
    destruct v as [ty s | c3 toks3]; [discriminate|].
    destruct (find _ toks3); [|discriminate].
    destruct (Nat.eqb _ _); discriminate.
  - intros (c & toks & -> & Hlen).
    rewrite tokenize_cols_values_outcome; unfold outcome.
    destruct (filter isinstance_TokenList toks) as [|a [|b [|x l]]];
      simpl in Hlen; try reflexivity; lia.
Qed.

Lemma ValueError_iff_not_two_token_lists_witness :
  tokenize_cols_values three_lists_target (Token Tokens.Name "x") =
  Raise ValueError.
Proof.
  apply (proj2 (ValueError_iff_not_two_token_lists _ _)).
  do 2 eexists; split; [reflexivity|].
  simpl; lia.
Defined.

(** X8. The extractor raises [AssertionError] exactly when the pair has
    the expected shape and its number of columns differs from its
    number of values: no other fault of the token tree ends in the
    assertion. *)
Theorem AssertionError_iff_count_mismatch (t v : node) :
  tokenize_cols_values t v = Raise AssertionError <->
  exists t_table cs vs,
    group_shape t v t_table cs vs /\
    List.length (columns_of cs) <> List.length (values_of vs).
Proof.
  split.
  - destruct t as [ty s | c1 toks1]; [discriminate|].
    rewrite tokenize_cols_values_outcome; unfold outcome.
    destruct (filter isinstance_TokenList toks1)
      as [|t_table [|t_columns [|x l]]] eqn:Hf; try discriminate.
    destruct (filter_TokenList_children toks1 t_columns) as (c2 & toks2 & ->);
      [rewrite Hf; simpl; auto|]; simpl.
    destruct (find _ toks2) as [ci|] eqn:Hc; [|discriminate].
    destruct (find_IdentifierList _ _ Hc) as [cs ->].
    destruct v as [ty s | c3 toks3]; [discriminate|].
    destruct (find _ toks3) as [vi|] eqn:Hv; [|discriminate].
    destruct (find_IdentifierList _ _ Hv) as [vs ->]; simpl.
    destruct (Nat.eqb _ _) eqn:E; [discriminate|]; intros _.
    exists t_table, cs, vs; split; [econstructor; eassumption|].
    apply Nat.eqb_neq in E; congruence.
  - intros (t_table & cs & vs & Hs & Hl).
    rewrite (tokenize_cols_values_shape _ _ _ _ _ Hs).
    destruct (Nat.eqb _ _) eqn:E; [|reflexivity].
    apply Nat.eqb_eq in E; congruence.
Qed.

Lemma AssertionError_iff_count_mismatch_witness :
  exists t_table cs vs,
    group_shape (Examples.target "t1" Examples.t1_cols)
      (Examples.tuple [Examples.int "1"]) t_table cs vs /\
    List.length (columns_of cs) <> List.length (values_of vs).
Proof.
  exact (proj1 (AssertionError_iff_count_mismatch
                  (Examples.target "t1" Examples.t1_cols)
                  (Examples.tuple [Examples.int "1"])) eq_refl).
Defined.

(** X9. The extractor raises [IndexError] exactly when the target group
    has its two token-list children and either the second of them has no
    [IdentifierList] child, or it has one and the value group is a token
    list without [IdentifierList] child. *)
Theorem IndexError_iff_no_identifier_list (t v : node) :
  tokenize_cols_values t v = Raise IndexError <->
  exists c1 toks1 t_table t_columns,
    t = TokenList c1 toks1 /\
    filter isinstance_TokenList toks1 = [t_table; t_columns] /\
    (find (isinstance IdentifierList) (children t_columns) = None \/
     find (isinstance IdentifierList) (children t_columns) <> None /\
     exists c3 toks3,
       v = TokenList c3 toks3 /\
       find (isinstance IdentifierList) toks3 = None).
Proof.
  split.
  - destruct t as [ty s | c1 toks1]; [discriminate|].
    rewrite tokenize_cols_values_outcome; unfold outcome.
    destruct (filter isinstance_TokenList toks1)
      as [|t_table [|t_columns [|x l]]] eqn:Hf; try discriminate.
    intros H; exists c1, toks1, t_table, t_columns.
    split; [reflexivity|]; split; [exact Hf|].
    destruct (find _ (children t_columns)) as [ci|]; [right|now left].
    split; [discriminate|].
    destruct v as [ty s | c3 toks3]; [discriminate|].
    exists c3, toks3; split; [reflexivity|].
    destruct (find _ toks3); [|reflexivity].
    destruct (Nat.eqb _ _); discriminate.
  - intros (c1 & toks1 & t_table & t_columns & -> & Hf & H).
    rewrite tokenize_cols_values_outcome; unfold outcome; rewrite Hf.
    destruct H as [-> | [Hsome (c3 & toks3 & -> & Hnone)]]; [reflexivity|].
    destruct (find _ (children t_columns)); [|congruence].
    now rewrite Hnone.
Qed.

Lemma IndexError_iff_no_identifier_list_witness :
  tokenize_cols_values (Examples.target "t1" Examples.t1_cols)
    (TokenList Parenthesis [Examples.lpar; Examples.int "1"; Examples.rpar]) =
  Raise IndexError.
Proof.
  apply (proj2 (IndexError_iff_no_identifier_list _ _)).
  do 4 eexists; split; [reflexivity|]; split; [reflexivity|].
  right; split; [discriminate|].
  do 2 eexists; split; reflexivity.
Defined.

(** X10. What the extractor does not look at.  The outcome for a pair
    depends only on the text of the first token-list child of the
    target group, on the first [IdentifierList] child of the second,
    and on the first [IdentifierList] child of the value group: the
    classes of the groups, the leaves among the target group's
    children, and whatever stands beside the first identifier lists,
    later identifier lists included, change nothing. *)
Theorem outcome_depends_on_located_nodes
  (c1 c1' c2 c2' c3 c3' : Class)
  (toks1 toks1' toks2 toks2' toks3 toks3' : list node)
  (t_table t_table' : node) :
  filter isinstance_TokenList toks1 = [t_table; TokenList c2 toks2] ->
  filter isinstance_TokenList toks1' = [t_table'; TokenList c2' toks2'] ->
  str t_table = str t_table' ->
  find (isinstance IdentifierList) toks2 =
    find (isinstance IdentifierList) toks2' ->
  find (isinstance IdentifierList) toks3 =
    find (isinstance IdentifierList) toks3' ->
  tokenize_cols_values (TokenList c1 toks1) (TokenList c3 toks3) =
  tokenize_cols_values (TokenList c1' toks1') (TokenList c3' toks3').
Proof.
  intros Hf Hf' Hstr H2 H3.
  rewrite !tokenize_cols_values_outcome; unfold outcome.
  rewrite Hf, Hf'; simpl.
  now rewrite H2, H3, Hstr.
Qed.

Lemma outcome_depends_on_located_nodes_witness :
  tokenize_cols_values
    (TokenList OtherList
       [Examples.ws; TokenList OtherList [Token Tokens.Name "t1"];
        Examples.kw "columns";
        TokenList OtherList
          [TokenList IdentifierList Examples.t1_cols; Examples.ws;
           TokenList IdentifierList Examples.t2_cols]])
    (TokenList OtherList
       [Examples.kw "select"; TokenList IdentifierList Examples.t1_vals;
        Examples.kw "from"; TokenList IdentifierList Examples.t2_vals]) =
  tokenize_cols_values (Examples.target "t1" Examples.t1_cols)
    (Examples.tuple Examples.t1_vals).
Proof.
  eapply outcome_depends_on_located_nodes
    with (t_table := TokenList OtherList [Token Tokens.Name "t1"])
         (t_table' := Examples.ident "t1");
    reflexivity.
Defined.

(** ** Outcomes of one statement *)

Lemma collect_Raise (groups : list (node * node)) (e : exn) :
  collect groups = Raise e ->
  exists t v, In (t, v) groups /\ tokenize_cols_values t v = Raise e.
Proof.
  induction groups as [|[t v] rest IH]; simpl; [discriminate|].
  destruct (tokenize_cols_values t v) as [r|e'] eqn:Ht; simpl.
  - destruct (collect rest) as [rs|e']; simpl; [discriminate|].
    intros H; inversion H; subst.
    destruct (IH eq_refl) as (t' & v' & Hin & Hr); eauto.
  - intros H; inversion H; subst; eauto.
Qed.

Lemma length_concat_group_pairs (groups : list (node * node))
  (data : list group_data) :
  Forall2 well_formed_group groups data ->
  List.length (List.concat (map group_pairs data)) =
  list_sum (map declared_columns data).
Proof.
  induction 1 as [|g [[t_table cs] vs] gs ds [_ Hl] _ IH]; [reflexivity|].
  cbn [map List.concat list_sum].
  rewrite length_app, IH; simpl.
  rewrite length_pairs_of by (now symmetry).
  reflexivity.
Qed.

(** X12. An INSERT statement gets a record exactly when every pair of a
    target group with the value group of the same rank is well formed:
    of the expected shape, with as many values as columns.  The record
    then holds the pairs of the groups in order, as many in all as the
    groups declare columns. *)
Theorem insert_record_iff_groups_well_formed
  (items : Statement) (r : odict) :
  get_type items = "INSERT" ->
  extract_col_values items = Ok r <->
  exists data : list group_data,
    Forall2 well_formed_group
      (combine (targetGroups items) (valueGroups items)) data /\
    r = columns_record items (List.concat (map group_pairs data)) /\
    List.length (List.concat (map group_pairs data)) =
      list_sum (map declared_columns data).
Proof.
  intros Hins; rewrite (extract_col_values_INSERT _ Hins); split.
  - destruct (collect _) as [l|e] eqn:Hc; simpl; [|discriminate].
    intros H; inversion H; subst; clear H.
    destruct (collect_Ok _ _ Hc) as (data & Hd & ->).
    exists data; repeat split; auto.
    exact (length_concat_group_pairs _ _ Hd).
  - intros (data & Hd & -> & _).
    erewrite collect_Forall2 with (rs := map group_pairs data);
      [reflexivity|].
    induction Hd as [|g d gs ds Hg _ IH]; simpl; constructor; auto.
    now apply well_formed_group_Ok.
Qed.

Lemma insert_record_iff_groups_well_formed_witness :
  exists data : list group_data,
    Forall2 well_formed_group
      (combine (targetGroups Examples.test_insert_all)
         (valueGroups Examples.test_insert_all)) data /\
    columns_record Examples.test_insert_all
      [("t1.col_a", "'v_a'"); ("t1.col_b", "2");
       ("t2.col_d", "4"); ("t2.col_c", "3")] =
      columns_record Examples.test_insert_all
        (List.concat (map group_pairs data)) /\
    List.length (List.concat (map group_pairs data)) =
      list_sum (map declared_columns data).
Proof.
  exact (proj1 (insert_record_iff_groups_well_formed
                  Examples.test_insert_all _ eq_refl) eq_refl).
Defined.

(** X5. Only an INSERT statement can raise, and it never raises
    [TypeError]: the two arrays hold token lists only, so no leaf is
    ever iterated.  What a statement raises is what one of its pairs
    raises. *)
Theorem statement_raises_only_for_insert (items : Statement) (e : exn) :
  extract_col_values items = Raise e ->
  get_type items = "INSERT" /\
  e <> TypeError /\
  exists t v,
    In (t, v) (combine (targetGroups items) (valueGroups items)) /\
    tokenize_cols_values t v = Raise e.
Proof.
  intros H.
  assert (Hins : get_type items = "INSERT").
  { destruct (String.eqb_spec (get_type items) "INSERT") as [Hi | Hi]; auto.
    destruct (String.eqb_spec (get_type items) "UNKNOWN") as [Hu | Hu].
    - rewrite (extract_col_values_UNKNOWN _ Hu) in H; discriminate.
    - rewrite (extract_col_values_other _ Hu Hi) in H; discriminate. }
  split; [exact Hins|].
  rewrite (extract_col_values_INSERT _ Hins) in H.
  destruct (collect _) as [l|e'] eqn:Hc; simpl in H; [discriminate|].
  inversion H; subst; clear H.
  destruct (collect_Raise _ _ Hc) as (t & v & Hin & Ht).
  split; [|eauto].
  apply in_combine_l in Hin as HinT; apply in_combine_r in Hin as HinV.
  apply filter_In in HinT as [_ HT]; apply filter_In in HinV as [_ HV].
  destruct t as [ty s | c1 toks1]; [discriminate|].
  destruct v as [ty s | c3 toks3]; [discriminate|].
  rewrite tokenize_cols_values_outcome in Ht; unfold outcome in Ht.
  intros ->.
  destruct (filter isinstance_TokenList toks1) as [|a [|b [|x l]]];
    try discriminate.
  destruct (find _ (children b)); [|discriminate].
  destruct (find _ toks3); [|discriminate].
  destruct (Nat.eqb _ _); discriminate.
Qed.

Lemma statement_raises_only_for_insert_witness :
  get_type Examples.mismatch = "INSERT" /\
  AssertionError <> TypeError /\
  exists t v,
    In (t, v) (combine (targetGroups Examples.mismatch)
                 (valueGroups Examples.mismatch)) /\
    tokenize_cols_values t v = Raise AssertionError.
Proof.
  exact (statement_raises_only_for_insert Examples.mismatch _ eq_refl).
Defined.

(** X11. An INSERT statement with no value group among its top-level
    children, or with no target group, gets the record with an empty
    sequence of columns: the groups it does have are left unexamined,
    whatever their shape. *)
Theorem unpaired_groups_are_not_examined (items : Statement) :
  get_type items = "INSERT" ->
  targetGroups items = [] \/ valueGroups items = [] ->
  extract_col_values items = Ok (columns_record items []).
Proof.
  intros Hins H.
  rewrite (extract_col_values_INSERT _ Hins).
  destruct H as [-> | ->]; [reflexivity|].
  now rewrite combine_nil.
Qed.

Lemma unpaired_groups_are_not_examined_witness :
  extract_col_values
    (mkStatement
       [Token Tokens.DML "insert"; Examples.ws; Examples.kw "into";
        Examples.ws; three_lists_target; Examples.ws;
        Token Tokens.DML "select"; Examples.ws; Examples.int "1"]
       "INSERT") =
  Ok [("query", VStr "insert into t1(a)(b) select 1"); ("columns", VPairs [])].
Proof.
  exact (unpaired_groups_are_not_examined
           (mkStatement
              [Token Tokens.DML "insert"; Examples.ws; Examples.kw "into";
               Examples.ws; three_lists_target; Examples.ws;
               Token Tokens.DML "select"; Examples.ws; Examples.int "1"]
              "INSERT")
           eq_refl (or_intror eq_refl)).
Defined.

(** ** Outcomes of a run *)

Lemma split_queries_kept (items : list Statement) :
  split_queries items = split_queries (filter kept items).
Proof.
  induction items as [|q rest IH]; [reflexivity|].
  rewrite split_queries_cons; cbn [filter].
  destruct (kept q) eqn:Hk; [|exact IH].
  now rewrite split_queries_cons, Hk, IH.
Qed.

Lemma extract_col_values_query (items : Statement) (r : odict) :
  extract_col_values items = Ok r ->
  getitem r "query" = Some (VStr (strip (str_stmt items))).
Proof.
  destruct (String.eqb_spec (get_type items) "INSERT") as [Hi | Hi].
  - rewrite (extract_col_values_INSERT _ Hi).
    destruct (collect _); simpl; [|discriminate].
    intros H; inversion H; reflexivity.
  - destruct (String.eqb_spec (get_type items) "UNKNOWN") as [Hu | Hu].
    + rewrite (extract_col_values_UNKNOWN _ Hu).
      intros H; inversion H; reflexivity.
    + rewrite (extract_col_values_other _ Hu Hi).
      intros H; inversion H; reflexivity.
Qed.

Lemma split_queries_Ok (items : list Statement) (rs : list odict) :
  split_queries items = Ok rs ->
  Forall2 (fun q r => extract_col_values q = Ok r) (filter kept items) rs.
Proof.
  revert rs; induction items as [|q rest IH]; intros rs.
  - intros H; inversion H; constructor.
  - rewrite split_queries_cons; cbn [filter].
    destruct (kept q); [|apply IH].
    destruct (extract_col_values q) as [r|e] eqn:Hq; simpl; [|discriminate].
    destruct (split_queries rest) as [rs'|e]; simpl; [|discriminate].
    intros H; inversion H; subst; constructor; auto.
Qed.

(** X2. A run returns a list exactly when every statement it keeps
    returns a record, and the list holds these records, one for each
    kept statement, in the order of the statements. *)
Theorem run_succeeds_iff_every_statement_does
  (items : list Statement) (rs : list odict) :
  split_queries items = Ok rs <->
  Forall2 (fun q r => extract_col_values q = Ok r) (filter kept items) rs.
Proof.
  split; [apply split_queries_Ok|].
  rewrite split_queries_kept.
  assert (Hk : Forall (fun q => kept q = true) (filter kept items)).
  { apply Forall_forall; intros q Hq; now apply filter_In in Hq. }
  revert Hk; generalize (filter kept items) as l.
  intros l Hk H; induction H as [|q r l rs Hq _ IH]; [reflexivity|].
  inversion Hk; subst.
  rewrite split_queries_cons.
  replace (kept q) with true by auto.
  rewrite Hq, IH; auto.
Qed.

Lemma run_succeeds_iff_every_statement_does_witness :
  split_queries
    [Examples.test_error_not_update; blank; Examples.test_subquery] =
  Ok [error_record Examples.test_error_not_update
        "Unsupported query type SELECT";
      columns_record Examples.test_subquery
        [("t1.q", "count(1)"); ("t1.r", "42")]].
Proof.
  apply (proj2 (run_succeeds_iff_every_statement_does _ _)).
  repeat constructor.
Defined.

(** X1. Order preservation.  The list a run returns has as many records
    as the run keeps statements, and the record at each rank carries as
    its query the text of the kept statement of that rank, stripped. *)
Theorem run_preserves_order (items : list Statement) (rs : list odict) :
  split_queries items = Ok rs ->
  List.length rs = List.length (filter kept items) /\
  map (fun r => getitem r "query") rs =
  map (fun q => Some (VStr (strip (str_stmt q)))) (filter kept items).
Proof.
  intros H; apply split_queries_Ok in H.
  induction H as [|q r l rs' Hq _ [IHl IHm]]; [split; reflexivity|].
  split; simpl; [now rewrite IHl|].
  now rewrite (extract_col_values_query _ _ Hq), IHm.
Qed.

Lemma run_preserves_order_witness :
  map (fun r => getitem r "query")
    [error_record Examples.test_error_not_update
       "Unsupported query type SELECT";
     columns_record Examples.test_subquery
       [("t1.q", "count(1)"); ("t1.r", "42")]] =
  [Some (VStr "select 1 from dual;");
   Some (VStr "insert into t1(q,r) (select count(1), 42 from dual);")].
Proof.
  exact (proj2 (run_preserves_order
                  [Examples.test_error_not_update; blank;
                   Examples.test_subquery] _ eq_refl)).
Defined.

(** X3. A statement whose text is entirely whitespace is dropped
    without being looked at: wherever it stands in the input, and
    whatever its type and its tokens, the run has the outcome it has
    without it, list or exception. *)
Theorem whitespace_statement_changes_nothing
  (before after : list Statement) (q : Statement) :
  isspace (str_stmt q) = true ->
  split_queries (before ++ q :: after) = split_queries (before ++ after).
Proof.
  intros H.
  rewrite (split_queries_kept (before ++ q :: after)).
  rewrite (split_queries_kept (before ++ after)).
  rewrite !filter_app; cbn [filter].
  unfold kept at 2; now rewrite H.
Qed.

Lemma whitespace_statement_changes_nothing_witness :
  split_queries [Examples.test_types; blank; Examples.mismatch] =
  split_queries [Examples.test_types; Examples.mismatch].
Proof.
  exact (whitespace_statement_changes_nothing
           [Examples.test_types] [Examples.mismatch] blank eq_refl).
Defined.

Lemma extract_col_values_error (q : Statement) :
  get_type q <> "INSERT" ->
  extract_col_values q = Ok (error_record q (error_message (get_type q))).
Proof.
  intros Hq; unfold error_message.
  destruct (String.eqb_spec (get_type q) "UNKNOWN") as [Hu | Hu].
  - now apply extract_col_values_UNKNOWN.
  - now apply extract_col_values_other.
Qed.

(** X4. A run over statements none of which is an INSERT never raises:
    it returns, for each statement it keeps, the record with the error
    message of that statement's type. *)
Theorem run_without_insert_never_raises (items : list Statement) :
  Forall (fun q => get_type q <> "INSERT") items ->
  split_queries items =
  Ok (map (fun q => error_record q (error_message (get_type q)))
        (filter kept items)).
Proof.
  induction 1 as [|q rest Hq _ IH]; [reflexivity|].
  rewrite split_queries_cons; cbn [filter].
  destruct (kept q); [|exact IH].
  now rewrite IH, (extract_col_values_error _ Hq).
Qed.

Lemma run_without_insert_never_raises_witness :
  split_queries
    [Examples.test_error_parsing; blank; Examples.test_error_not_update] =
  Ok [error_record Examples.test_error_parsing "Parsing failed";
      error_record Examples.test_error_not_update
        "Unsupported query type SELECT"].
Proof.
  apply (run_without_insert_never_raises
           [Examples.test_error_parsing; blank;
            Examples.test_error_not_update]).
  repeat constructor; discriminate.
Defined.

(** X6. A run raises an exception exactly when some kept statement
    raises it and every kept statement before that one returns a
    record: the exception of a run is that of the first statement to
    fail, and the statements after it are not processed. *)
Theorem run_raises_iff_first_failure (items : list Statement) (e : exn) :
  split_queries items = Raise e <->
  exists before q after,
    filter kept items = before ++ q :: after /\
    Forall (fun p => exists r, extract_col_values p = Ok r) before /\
    extract_col_values q = Raise e.
Proof.
  rewrite split_queries_kept.
  assert (Hk : Forall (fun q => kept q = true) (filter kept items)).
  { apply Forall_forall; intros q Hq; now apply filter_In in Hq. }
  revert Hk; generalize (filter kept items) as l.
  induction l as [|p l IH]; intros Hk.
  - split; [discriminate|].
    intros (before & q & after & H & _); destruct before; discriminate.
  - inversion Hk as [|? ? Hp Hl]; subst.
    rewrite split_queries_cons, Hp.
    destruct (extract_col_values p) as [r|e'] eqn:Hr; simpl.
    + destruct (split_queries l) as [rs|e'] eqn:Hs; simpl.
      * split; [discriminate|].
        intros (before & q & after & H & Hb & Hq).
        destruct before as [|b before]; simpl in H; inversion H; subst.
        -- congruence.
        -- inversion Hb; subst.
           assert (Hfalse : Ok rs = Raise e)
             by (apply (IH Hl); eauto 6).
           discriminate.
      * split.
        -- intros H; inversion H; subst.
           destruct (proj1 (IH Hl) eq_refl)
             as (before & q & after & -> & Hb & Hq).
           exists (p :: before), q, after; repeat split; eauto.
        -- intros (before & q & after & H & Hb & Hq).
           destruct before as [|b before]; simpl in H; inversion H; subst.
           ++ congruence.
           ++ inversion Hb; subst.
              f_equal; symmetry.
              assert (Hraise : Raise e' = Raise e)
                by (apply (IH Hl); eauto 6).
              now inversion Hraise.
    + split.
      * intros H; inversion H; subst.
        exists [], p, l; repeat split; auto.
      * intros (before & q & after & H & Hb & Hq).
        destruct before as [|b before]; simpl in H; inversion H; subst.
        -- congruence.
        -- inversion Hb as [|? ? [r Hr'] ?]; subst; congruence.
Qed.

Lemma run_raises_iff_first_failure_witness :
  split_queries
    [Examples.test_types; blank; Examples.mismatch;
     Examples.no_identifier_list] = Raise AssertionError.
Proof.
  apply (proj2 (run_raises_iff_first_failure _ _)).
  exists [Examples.test_types], Examples.mismatch,
         [Examples.no_identifier_list].
  split; [reflexivity|]; split; [|reflexivity].
  constructor; [eexists; reflexivity | constructor].
Defined.

(** X15. Batches.  Running two lists of statements one after the other
    gives what running their concatenation gives: the two lists of
    records joined when both runs return, the exception of the first
    run when it raises, and otherwise the exception of the second. *)
Theorem run_of_concatenation (l1 l2 : list Statement) :
  (forall r1 r2,
     split_queries l1 = Ok r1 -> split_queries l2 = Ok r2 ->
     split_queries (l1 ++ l2) = Ok (r1 ++ r2)) /\
  (forall e, split_queries l1 = Raise e -> split_queries (l1 ++ l2) = Raise e) /\
  (forall r1 e,
     split_queries l1 = Ok r1 -> split_queries l2 = Raise e ->
     split_queries (l1 ++ l2) = Raise e).
Proof.
  rewrite split_queries_app.
  split; [|split].
  - intros r1 r2 -> ->; reflexivity.
  - intros e ->; reflexivity.
  - intros r1 e -> ->; reflexivity.
Qed.

Lemma run_of_concatenation_witness :
  split_queries
    ([Examples.test_error_parsing; Examples.test_subquery] ++
     [Examples.mismatch]) = Raise AssertionError.
Proof.
  exact (proj2 (proj2 (run_of_concatenation
                         [Examples.test_error_parsing; Examples.test_subquery]
                         [Examples.mismatch])) _ _ eq_refl eq_refl).
Defined.

(** ** The query text *)

Lemma lstrip_split (s : string) :
  exists pre, s = (pre ++ lstrip s)%string /\ all_space pre = true.
Proof.
  induction s as [|c s (pre & Hs & Hpre)]; [exists ""; auto|]; simpl.
  destruct (is_space c) eqn:Hc.
  - exists (String c pre); simpl; rewrite Hc, Hpre.
    split; [now f_equal | reflexivity].
  - exists ""; auto.
Qed.

Lemma rstrip_split (s : string) :
  exists post, s = (rstrip s ++ post)%string /\ all_space post = true.
Proof.
  induction s as [|c s (post & Hs & Hpost)]; [exists ""; auto|]; simpl.
  destruct (rstrip s) as [|c' r] eqn:Hr.
  - simpl in Hs; subst s.
    destruct (is_space c) eqn:Hc.
    + exists (String c post); simpl; rewrite Hc, Hpost; auto.
    + exists post; auto.
  - exists post; split; [|exact Hpost].
    simpl; f_equal; exact Hs.
Qed.

Lemma lstrip_starts (s : string) : starts_with_space (lstrip s) = false.
Proof.
  induction s as [|c s IH]; [reflexivity|]; simpl.
  destruct (is_space c) eqn:Hc; [exact IH | simpl; exact Hc].
Qed.

Lemma rstrip_ends (s : string) : ends_with_space (rstrip s) = false.
Proof.
  induction s as [|c s IH]; [reflexivity|]; simpl.
  destruct (rstrip s) as [|c' r] eqn:Hr.
  - destruct (is_space c) eqn:Hc; [reflexivity | simpl; exact Hc].
  - exact IH.
Qed.

Lemma rstrip_starts (s : string) :
  starts_with_space s = false -> starts_with_space (rstrip s) = false.
Proof.
  destruct s as [|c s]; [reflexivity|]; simpl; intros Hc.
  destruct (rstrip s); [rewrite Hc|]; simpl; exact Hc.
Qed.

Lemma lstrip_id (s : string) : starts_with_space s = false -> lstrip s = s.
Proof. destruct s as [|c s]; simpl; [reflexivity | now intros ->]. Qed.

Lemma rstrip_id (s : string) : ends_with_space s = false -> rstrip s = s.
Proof.
  induction s as [|c s IH]; [reflexivity|].
  destruct s as [|c' s'].
  - simpl; now intros ->.
  - intros H; change (ends_with_space (String c' s') = false) in H.
    change (rstrip (String c (String c' s'))) with
      (match rstrip (String c' s') with
       | EmptyString => if is_space c then EmptyString else String c EmptyString
       | r => String c r
       end).
    now rewrite (IH H).
Qed.

(** X13. The query of a record is the text of the statement with the
    whitespace at its two ends removed and nothing else: the text is
    the query between two runs of whitespace characters, and the query
    neither begins nor ends with one.  A text that has no whitespace at
    its ends is the query as it is. *)
Theorem query_is_the_stripped_text (items : Statement) (r : odict) :
  extract_col_values items = Ok r ->
  exists s pre post,
    getitem r "query" = Some (VStr s) /\
    str_stmt items = (pre ++ s ++ post)%string /\
    all_space pre = true /\
    all_space post = true /\
    starts_with_space s = false /\
    ends_with_space s = false /\
    (starts_with_space (str_stmt items) = false ->
     ends_with_space (str_stmt items) = false ->
     s = str_stmt items).
Proof.
  intros H; apply extract_col_values_query in H.
  destruct (lstrip_split (str_stmt items)) as (pre & Hpre & Hsp).
  destruct (rstrip_split (lstrip (str_stmt items))) as (post & Hpost & Hsq).
  exists (strip (str_stmt items)), pre, post.
  split; [exact H|]; unfold strip.
  split; [now rewrite <- Hpost, <- Hpre|].
  split; [exact Hsp|]; split; [exact Hsq|].
  split; [apply rstrip_starts, lstrip_starts|].
  split; [apply rstrip_ends|].
  intros Hs He; now rewrite (lstrip_id _ Hs), (rstrip_id _ He).
Qed.

Lemma query_is_the_stripped_text_witness :
  exists s pre post,
    getitem
      (error_record
         (mkStatement
            [Examples.ws; Examples.kw "commit"; Examples.semi;
             Token Tokens.Newline (String (ascii_of_nat 10) "")]
            "COMMIT")
         "Unsupported query type COMMIT") "query" = Some (VStr s) /\
    (" commit;" ++ String (ascii_of_nat 10) "")%string =
      (pre ++ s ++ post)%string /\
    all_space pre = true /\
    all_space post = true /\
    starts_with_space s = false /\
    ends_with_space s = false /\
    (starts_with_space (" commit;" ++ String (ascii_of_nat 10) "")%string
       = false ->
     ends_with_space (" commit;" ++ String (ascii_of_nat 10) "")%string
       = false ->
     s = (" commit;" ++ String (ascii_of_nat 10) "")%string).
Proof.
  exact (query_is_the_stripped_text
           (mkStatement
              [Examples.ws; Examples.kw "commit"; Examples.semi;
               Token Tokens.Newline (String (ascii_of_nat 10) "")]
              "COMMIT") _ eq_refl).
Defined.

(** ** The command line *)

Lemma contains_In (x : string) (l : list string) :
  contains x l = true <-> In x l.
Proof.
  unfold contains; rewrite existsb_exists; split.
  - intros (y & Hy & E); apply String.eqb_eq in E; now subst.
  - intros H; exists x; split; [exact H | apply String.eqb_refl].
Qed.

Lemma contains_false (x : string) (l : list string) :
  contains x l = false <-> ~ In x l.
Proof.
  rewrite <- contains_In; destruct (contains x l); split;
    congruence || discriminate || auto.
Qed.

(** X14. The logging level is [DEBUG] exactly when [-vv] is among the
    arguments, with or without [-v]; [INFO] exactly when [-v] is and
    [-vv] is not; [ERROR] exactly when neither is.  It depends on
    which arguments are present only, not on their order or number. *)
Theorem level_depends_on_flags_present (argv : list string) :
  (basicConfig_level argv = DEBUG <-> In "-vv" argv) /\
  (basicConfig_level argv = INFO <-> In "-v" argv /\ ~ In "-vv" argv) /\
  (basicConfig_level argv = ERROR <-> ~ In "-v" argv /\ ~ In "-vv" argv) /\
  (forall argv' : list string,
     (forall x, In x argv <-> In x argv') ->
     basicConfig_level argv = basicConfig_level argv').
Proof.
  assert (Hlevel : forall l,
    basicConfig_level l =
    if contains "-vv" l then DEBUG
    else if contains "-v" l then INFO else ERROR) by reflexivity.
  rewrite Hlevel.
  destruct (contains "-vv" argv) eqn:Hvv; [|destruct (contains "-v" argv) eqn:Hv].
  - apply contains_In in Hvv as Hin.
    repeat split; try discriminate; try tauto.
    intros argv' Hsame; rewrite Hlevel.
    apply Hsame, contains_In in Hin; now rewrite Hin.
  - apply contains_false in Hvv as Hnvv; apply contains_In in Hv as Hinv.
    repeat split; try discriminate; try tauto.
    intros argv' Hsame; rewrite Hlevel.
    rewrite Hsame in Hnvv; rewrite Hsame in Hinv.
    apply contains_false in Hnvv; apply contains_In in Hinv.
    now rewrite Hnvv, Hinv.
  - apply contains_false in Hvv as Hnvv; apply contains_false in Hv as Hnv.
    repeat split; try discriminate; try tauto.
    intros argv' Hsame; rewrite Hlevel.
    rewrite Hsame in Hnvv; rewrite Hsame in Hnv.
    apply contains_false in Hnvv; apply contains_false in Hnv.
    now rewrite Hnvv, Hnv.
Qed.

Lemma level_depends_on_flags_present_witness :
  basicConfig_level ["parse_sql_columns.py"; "-v"; "-vv"] = DEBUG /\
  basicConfig_level ["parse_sql_columns.py"; "-vvv"] = ERROR.
Proof.
  split.
  - apply (proj1 (level_depends_on_flags_present _)).
    simpl; auto.
  - apply (proj1 (proj2 (proj2 (level_depends_on_flags_present _)))).
    split; simpl; intros [H | [H | []]]; discriminate H.
Defined.

(** ** Pairing by rank *)

(** X16. Two INSERT statements whose target groups, paired by rank with
    their value groups, give the same pairs of groups have the same
    columns, or raise the same exception: how the target groups and the
    value groups are interleaved among the top-level children, what else
    stands among these, and the groups beyond the shorter of the two
    arrays have no part in the outcome. *)
Theorem outcome_depends_on_groups_paired_by_rank (items items' : Statement) :
  get_type items = "INSERT" ->
  get_type items' = "INSERT" ->
  combine (targetGroups items) (valueGroups items) =
  combine (targetGroups items') (valueGroups items') ->
  (forall l,
     extract_col_values items = Ok (columns_record items l) ->
     extract_col_values items' = Ok (columns_record items' l)) /\
  (forall e,
     extract_col_values items = Raise e ->
     extract_col_values items' = Raise e).
Proof.
  intros Hi Hi' Hz.
  rewrite (extract_col_values_INSERT _ Hi), (extract_col_values_INSERT _ Hi').
  rewrite <- Hz.
  destruct (collect _) as [l'|e']; simpl; split.
  - intros l H; inversion H; reflexivity.
  - discriminate.
  - discriminate.
  - intros e H; exact H.
Qed.

Lemma outcome_depends_on_groups_paired_by_rank_witness :
  extract_col_values
    (mkStatement
       [Examples.target "t1" Examples.t1_cols;
        Examples.target "t2" Examples.t2_cols;
        Examples.kw "values";
        Examples.tuple Examples.t1_vals; Examples.tuple Examples.t2_vals;
        three_lists_target]
       "INSERT") =
  Ok [("query", VStr "t1(col_a, col_b)t2(col_d, col_c)values('v_a', 2)(4, 3)t1(a)(b)");
      ("columns",
       VPairs [("t1.col_a", "'v_a'"); ("t1.col_b", "2");
               ("t2.col_d", "4"); ("t2.col_c", "3")])].
Proof.
  exact (proj1 (outcome_depends_on_groups_paired_by_rank
                  Examples.test_insert_all
                  (mkStatement
                     [Examples.target "t1" Examples.t1_cols;
                      Examples.target "t2" Examples.t2_cols;
                      Examples.kw "values";
                      Examples.tuple Examples.t1_vals;
                      Examples.tuple Examples.t2_vals;
                      three_lists_target]
                     "INSERT")
                  eq_refl eq_refl eq_refl) _ eq_refl).
Defined.
